(** * DroneBL.py: a shallow embedding of [dronebl.py] and its properties

    The development follows the layout of the script: Python values and
    exceptions, dictionaries, the validators handed to [argparse], the
    configuration loader, the request builder, the RPC exchange with the
    response parser, and the query table.

    Python dictionaries keep insertion order, and several loops of the
    script iterate over them, so a dictionary is an association list with
    unique keys.  Text is [string]; [len] is [String.length]. *)

From Stdlib Require Import ZArith List String Ascii Bool Lia PeanoNat.
From Stdlib Require Import DecimalString.
From Stdlib Require PrimFloat.
Import ListNotations.
Set Warnings "-register-all".
Open Scope string_scope.
Open Scope Z_scope.

(** ** Exceptions and results *)

(** The exceptions the script raises or lets escape.  [SystemExit] is what
    [sys.exit] raises; it is not a subclass of [Exception]. *)
Inductive exn : Type :=
| ValueError (msg : string)
| TypeError (msg : string)
| KeyError (key : string)
| AttributeError (msg : string)
| UnboundLocalError (name : string)
| OtherError (msg : string)
| SystemExit (code : Z).

(** A Python call either returns a value or raises. *)
Inductive outcome (A : Type) : Type :=
| Ret (a : A)
| Raise (e : exn).
Arguments Ret {A} a.
Arguments Raise {A} e.

(** [except Exception] catches everything of ours except [SystemExit]. *)
Definition is_Exception (e : exn) : bool :=
  match e with
  | SystemExit _ => false
  | _ => true
  end.

(** The status the interpreter exits with: 0 after a normal return, the
    low byte of the code of a [SystemExit], 1 with a traceback for any
    other exception that nothing caught. *)
Definition exit_status {A : Type} (o : outcome A) : Z :=
  match o with
  | Ret _ => 0
  | Raise (SystemExit c) => c mod 256
  | Raise _ => 1
  end.

Definition returned {A : Type} (o : outcome A) : Prop :=
  exists a, o = Ret a.

(** ** Dictionaries *)

Module Dict.

Definition t (V : Type) : Type := list (string * V).

Definition empty {V : Type} : t V := [].

(** [d.get(k)], [d[k]] when the key is there. *)
Fixpoint get {V : Type} (k : string) (d : t V) : option V :=
  match d with
  | [] => None
  | (k', v) :: d' => if String.eqb k k' then Some v else get k d'
  end.

(** [k in d] *)
Definition mem {V : Type} (k : string) (d : t V) : bool :=
  match get k d with
  | Some _ => true
  | None => false
  end.

(** [d[k] = v]: an existing key keeps its place, a new one goes last. *)
Fixpoint set {V : Type} (k : string) (v : V) (d : t V) : t V :=
  match d with
  | [] => [(k, v)]
  | (k', v') :: d' =>
      if String.eqb k k' then (k', v) :: d' else (k', v') :: set k v d'
  end.

Definition keys {V : Type} (d : t V) : list string := map fst d.

(** [{**a, **b}] *)
Definition update {V : Type} (a b : t V) : t V :=
  fold_left (fun acc kv => set (fst kv) (snd kv) acc) b a.

End Dict.

(** ** Python values read from the configuration file *)

(** What [json.load] can return.  A float is a binary64, as in Python. *)
Inductive json : Type :=
| JNull
| JBool (b : bool)
| JInt (n : Z)
| JFloat (f : PrimFloat.float)
| JStr (s : string)
| JList (l : list json)
| JObj (d : list (string * json)).

(** Truth value testing, as [if x:] does it. *)
Definition truthy (x : json) : bool :=
  match x with
  | JNull => false
  | JBool b => b
  | JInt n => negb (n =? 0)
  | JFloat f => negb (PrimFloat.eqb f PrimFloat.zero)
  | JStr s => negb (String.eqb s "")
  | JList l => match l with [] => false | _ => true end
  | JObj d => match d with [] => false | _ => true end
  end.

(** [str] of an [int]. *)
Definition str_int (n : Z) : string := NilZero.string_of_int (Z.to_int n).

(** ** Elements of [xml.etree.ElementTree] *)

(** An element has a tag, an attribute dictionary, an optional text and
    children.  The values of the attributes are strings in a parsed
    document; in a request the script stores whatever the configuration
    holds under [rpckey]. *)
Inductive element (V : Type) : Type :=
  Element (tag : string) (attrib : Dict.t V) (text : option string)
          (children : list (element V)).
Arguments Element {V} tag attrib text children.

Definition tag {V : Type} (e : element V) : string :=
  match e with Element t _ _ _ => t end.
Definition attrib {V : Type} (e : element V) : Dict.t V :=
  match e with Element _ a _ _ => a end.
Definition text {V : Type} (e : element V) : option string :=
  match e with Element _ _ x _ => x end.
Definition children {V : Type} (e : element V) : list (element V) :=
  match e with Element _ _ _ c => c end.

(** [e.set(k, v)] *)
Definition el_set {V : Type} (k : string) (v : V) (e : element V) : element V :=
  match e with
  | Element t a x c => Element t (Dict.set k v a) x c
  end.

(** [et.SubElement(parent, tag, **extra)]: a new element whose
    attributes are a copy of [extra] is appended to the children of
    [parent].
    ElementTree checks neither the tag nor the attributes when an element
    is made, so the call returns. *)
Definition SubElement {V : Type} (parent : element V) (method : string)
    (extra : Dict.t V) : outcome (element V) :=
  match parent with
  | Element t a x c =>
      Ret (Element t a x (c ++ [Element method extra None []]))
  end.

(** [e.find('./name')]: the first direct child with that tag. *)
Fixpoint find_child {V : Type} (name : string) (l : list (element V))
  : option (element V) :=
  match l with
  | [] => None
  | e :: l' => if String.eqb (tag e) name then Some e else find_child name l'
  end.

(** ** Addresses and networks of the [ipaddress] module *)

Inductive version : Type := V4 | V6.

Definition max_prefixlen (v : version) : Z :=
  match v with V4 => 32 | V6 => 128 end.

Definition ALL_ONES (v : version) : Z := 2 ^ max_prefixlen v - 1.

(** An [IPv4Address] or [IPv6Address]: the family and the address as an
    integer. *)
Record address : Type := Address {
  addr_version : version;
  addr_int : Z
}.

(** An [IPv4Network] or [IPv6Network]. *)
Record network : Type := Network {
  network_address : address;
  prefixlen : Z
}.

(** [_make_netmask] for a prefix length: the mask as an integer. *)
Definition netmask_of (v : version) (plen : Z) : Z :=
  Z.lxor (ALL_ONES v) (Z.shiftr (ALL_ONES v) plen).

Definition netmask (n : network) : Z :=
  netmask_of (addr_version (network_address n)) (prefixlen n).

(** The [hostmask] property of a network. *)
Definition hostmask (n : network) : Z :=
  Z.lxor (netmask n) (ALL_ONES (addr_version (network_address n))).

(** What [ipaddr] returns when it does not return [None]. *)
Inductive ipobj : Type :=
| IPAddr (a : address)
| IPNet (n : network).

(** What [idorip] returns. *)
Inductive ident : Type :=
| IdInt (n : Z)
| IdIP (o : ipobj).

(** ** The world of a run *)

(** What a run can observe and change: the lines printed so far and the
    request bodies POSTed so far. *)
Record world : Type := World {
  stdout : list string;
  posts : list string
}.

(** A statement runs in a world, leaves a world, and returns or raises. *)
Definition IO (A : Type) : Type := world -> world * outcome A.

Definition io_ret {A : Type} (a : A) : IO A := fun w => (w, Ret a).

Definition io_raise {A : Type} (e : exn) : IO A := fun w => (w, Raise e).

Definition io_bind {A B : Type} (c : IO A) (k : A -> IO B) : IO B :=
  fun w =>
    match c w with
    | (w', Ret a) => k a w'
    | (w', Raise e) => (w', Raise e)
    end.

Definition o_bind {A B : Type} (c : outcome A) (k : A -> outcome B) : outcome B :=
  match c with
  | Ret a => k a
  | Raise e => Raise e
  end.

Declare Scope io_scope.
Delimit Scope io_scope with io.
Notation "x <- c ;; k" := (io_bind c (fun x => k))
  (at level 61, c at next level, right associativity) : io_scope.
Notation "c ;; k" := (io_bind c (fun _ => k))
  (at level 61, right associativity) : io_scope.

Declare Scope outcome_scope.
Delimit Scope outcome_scope with outcome.
Notation "x <- c ;; k" := (o_bind c (fun x => k))
  (at level 61, c at next level, right associativity) : outcome_scope.

(** [print(s)] *)
Definition print (s : string) : IO unit :=
  fun w => (World (stdout w ++ [s]) (posts w), Ret tt).

(** [sys.exit(code)] *)
Definition sys_exit {A : Type} (code : Z) : IO A := io_raise (SystemExit code).

(** Lifting a pure call that may raise. *)
Definition lift {A : Type} (o : outcome A) : IO A := fun w => (w, o).

(** [for x in l: body(x)] *)
Fixpoint for_each {A : Type} (l : list A) (body : A -> IO unit) : IO unit :=
  match l with
  | [] => io_ret tt
  | x :: l' => io_bind (body x) (fun _ => for_each l' body)
  end.

(** ** What the script takes from Python and its libraries *)

(** The outcome of the one HTTPS exchange of [send_rpcrequest] together
    with the parse of the body: the statements inside its [try]. *)
Inductive failure : Type :=
| DNSFailure
| TLSFailure
| ConnectionReset
| Timeout
| UnreadableResponse.

Inductive exchange : Type :=
| Fails (kind : failure) (msg : string)
| Replies (xmlres : string) (xmlobj : element string).

(** The builtins and library calls whose code is not the script's.  The
    script is embedded over any implementation of them.
    - [int_of_str] is [int(val)] on a string;
    - [ip_text] is the text parser of [ipaddress]: the family, the address
      as an integer and the prefix length a string denotes, before any
      check on host bits;
    - [ip_str] is [str] on an address or a network;
    - [timestamp_iso] is
      [datetime.datetime.fromtimestamp(int(s)).isoformat()];
    - [xml_write] is [ElementTree.write] to bytes: the body, or the text
      of the exception;
    - [json_loads] is [json.load] on the content of a file, [None] where it
      raises;
    - [https_post] is the answer of [dronebl.org] to the n-th POST of a
      body. *)
Class Runtime : Type := {
  int_of_str : string -> outcome Z;
  ip_text : string -> option (version * Z * Z);
  ip_str : ipobj -> string;
  timestamp_iso : string -> outcome string;
  xml_write : element json -> string + string;
  json_loads : string -> option json;
  https_post : nat -> string -> exchange
}.

(** ** Validators *)

Module Validators.
Section WithRuntime.
Context {rt : Runtime}.
Local Open Scope outcome_scope.

Definition checkint (val : string) : option Z :=
  match int_of_str val with
  | Ret n => Some n
  | Raise _ => None
  end.

(** [ipaddress.ip_network(val, False)]: the constructor checks the
    ranges, and with [strict] off it clears the host bits instead of
    raising. *)
Definition ip_network (val : string) : outcome network :=
  match ip_text val with
  | None => Raise (ValueError "does not appear to be an IPv4 or IPv6 network")
  | Some (v, packed, plen) =>
      if negb ((0 <=? packed) && (packed <=? ALL_ONES v)) then
        Raise (ValueError "address out of range")
      else if negb ((0 <=? plen) && (plen <=? max_prefixlen v)) then
        Raise (ValueError "is not a valid netmask")
      else
        let mask := netmask_of v plen in
        if negb (Z.land packed mask =? packed) then
          Ret (Network (Address v (Z.land packed mask)) plen)
        else
          Ret (Network (Address v packed) plen)
  end.

Definition ipaddr (val : string) : option ipobj :=
  match ip_network val with
  | Ret ipn =>
      let ipa := network_address ipn in
      if prefixlen ipn =? max_prefixlen (addr_version ipa) then
        Some (IPAddr ipa)
      else
        Some (IPNet ipn)
  | Raise _ => None
  end.

Definition idorip (val : string) : outcome ident :=
  match checkint val with
  | None =>
      match ipaddr val with
      | None =>
          Raise (ValueError
            "value must be either an integer, an IP address or a CIDR address")
      | Some i => Ret (IdIP i)
      end
  | Some i => Ret (IdInt i)
  end.

Definition portnumber (val : string) : outcome Z :=
  port <- int_of_str val ;;
  if port <? 1 then Raise (ValueError "value must be greater than 0")
  else if port >? 65535 then Raise (ValueError "value must be less than 65536")
  else Ret port.

Definition listingtype (val : string) : outcome Z :=
  type <- int_of_str val ;;
  if type <? 1 then Raise (ValueError "value must be greater than 0")
  else if type >? 255 then Raise (ValueError "value must be less than 256")
  else Ret type.

Definition querylimit (val : string) : outcome Z :=
  lim <- int_of_str val ;;
  if lim <? 1 then Raise (ValueError "value must be greater than 0")
  else if lim >? 255 then Raise (ValueError "value must be less than 1001")
  else Ret lim.

Definition positiveint (val : string) : outcome Z :=
  i <- int_of_str val ;;
  if i <? 1 then Raise (ValueError "value must be greater than 0")
  else Ret i.

(** [str(x)] where [x] is what [ipaddr] returned. *)
Definition str_ip (x : option ipobj) : string :=
  match x with
  | None => "None"
  | Some o => ip_str o
  end.

(** [str(item)] for an item of [args.idorip]. *)
Definition str_ident (i : ident) : string :=
  match i with
  | IdInt n => str_int n
  | IdIP o => ip_str o
  end.

End WithRuntime.
End Validators.

(** ** The argument layer *)

Module Args.
Section WithRuntime.
Context {rt : Runtime}.

(** [argparse] applies the [type=] callable to each raw string.  A
    [ValueError] or [TypeError] becomes a usage error, which exits with
    status 2; whatever the callable returns, [None] included, is stored. *)
Definition get_value {A : Type} (type_func : string -> outcome A)
    (arg_string : string) : outcome A :=
  match type_func arg_string with
  | Ret result => Ret result
  | Raise (ValueError _) => Raise (SystemExit 2)
  | Raise (TypeError _) => Raise (SystemExit 2)
  | Raise e => Raise e
  end.

(** [nargs='+'] *)
Fixpoint get_values {A : Type} (type_func : string -> outcome A)
    (arg_strings : list string) : outcome (list A) :=
  match arg_strings with
  | [] => Ret []
  | s :: rest =>
      o_bind (get_value type_func s) (fun v =>
      o_bind (get_values type_func rest) (fun vs => Ret (v :: vs)))
  end.

(** The namespace of the [query] command. *)
Record query : Type := Query {
  q_idorip : list ident;
  q_own : bool;
  q_listed : option Z;
  q_type : option Z;
  q_start : option Z;
  q_stop : option Z;
  q_limit : option Z
}.

(** The namespace of the [add] command; [type=ipaddr] may have stored
    [None] for an address. *)
Record add : Type := Add {
  a_ip : list (option ipobj);
  a_type : option Z;
  a_port : option Z;
  a_comment : option string
}.

Record remove : Type := Remove {
  r_id : list Z
}.

Record update : Type := Update {
  u_id : list Z;
  u_comment : option string
}.

(** The positional of [add]: [nargs='+', type=ipaddr]. *)
Definition add_ip_values (arg_strings : list string)
  : outcome (list (option ipobj)) :=
  get_values (fun s => Ret (Validators.ipaddr s)) arg_strings.

(** The positional of [query]: [nargs='+', type=idorip]. *)
Definition query_idorip_values (arg_strings : list string)
  : outcome (list ident) :=
  get_values Validators.idorip arg_strings.

End WithRuntime.
End Args.

(** ** The configuration *)

Module Config.

(** The global [config] dictionary always has exactly these three keys,
    holding whatever the file gave. *)
Record t : Type := Make {
  rpckey : json;
  staging : json;
  debug : json
}.

Definition defaults : t := Make JNull (JBool false) (JBool false).

(** The value under a key, or what the configuration had. *)
Definition or_default (o : option json) (default : json) : json :=
  match o with
  | Some v => v
  | None => default
  end.

(** What is at the path of the configuration file. *)
Inductive fsentry : Type :=
| NoFile
| Unreadable
| File (content : string).

(** [k in x] for a string [k] *)
Definition py_in (k : string) (x : json) : outcome bool :=
  match x with
  | JObj d => Ret (Dict.mem k d)
  | JList l =>
      Ret (existsb (fun e => match e with
                             | JStr s => String.eqb k s
                             | _ => false
                             end) l)
  | JStr s => Ret (match String.index 0 k s with Some _ => true | None => false end)
  | _ => Raise (TypeError "argument is not iterable")
  end.

(** [x[k]] for a string [k] *)
Definition py_getitem (x : json) (k : string) : outcome json :=
  match x with
  | JObj d =>
      match Dict.get k d with
      | Some v => Ret v
      | None => Raise (KeyError k)
      end
  | JList _ => Raise (TypeError "list indices must be integers or slices, not str")
  | JStr _ => Raise (TypeError "string indices must be integers, not 'str'")
  | _ => Raise (TypeError "object is not subscriptable")
  end.

Section WithRuntime.
Context {rt : Runtime}.
Local Open Scope outcome_scope.

Definition load_config (fs : string -> fsentry) (conffile : string)
    (config : t) : outcome t :=
  match fs conffile with
  | NoFile => Ret config
  | entry =>
      let newconfig :=
        match entry with
        | File content =>
            match json_loads content with
            | Some j => j
            | None => JNull
            end
        | _ => JNull
        end in
      match newconfig with
      | JNull => Ret config
      | _ =>
          has <- py_in "rpckey" newconfig ;;
          config <- (if has : bool then
                       v <- py_getitem newconfig "rpckey" ;;
                       Ret (Make v (staging config) (debug config))
                     else Ret config) ;;
          has <- py_in "staging" newconfig ;;
          config <- (if has : bool then
                       v <- py_getitem newconfig "staging" ;;
                       Ret (Make (rpckey config) v (debug config))
                     else Ret config) ;;
          has <- py_in "debug" newconfig ;;
          (if has : bool then
             v <- py_getitem newconfig "debug" ;;
             Ret (Make (rpckey config) (staging config) v)
           else Ret config)
      end
  end.

End WithRuntime.
End Config.

(** ** The request builder *)

Module Request.
Section WithRuntime.
Context {rt : Runtime}.
Local Open Scope io_scope.

Definition get_rpcrequest (config : Config.t) : element json :=
  let root := Element "request" Dict.empty None [] in
  let root := el_set "key" (Config.rpckey config) root in
  let root := if truthy (Config.staging config)
              then el_set "staging" (JStr "1") root else root in
  let root := if truthy (Config.debug config)
              then el_set "debug" (JStr "1") root else root in
  root.

(** What a command's loop leaves: the root as [get_rpcrequest] made it
    and one element with the command's tag per item. *)
Definition built {A : Type} (config : Config.t) (method : string)
    (items : list A) (req : element json) : Prop :=
  tag req = "request" /\
  attrib req = attrib (get_rpcrequest config) /\
  List.length (children req) = List.length items /\
  Forall (fun el => tag el = method) (children req).

(** [str(ex)] *)
Definition str_exn (e : exn) : string :=
  match e with
  | ValueError m | TypeError m | AttributeError m | OtherError m => m
  | KeyError k => "'" ++ k ++ "'"
  | UnboundLocalError n =>
      "cannot access local variable '" ++ n ++
      "' where it is not associated with a value"
  | SystemExit c => str_int c
  end.

(** The request is changed in place in the script; here the changed
    request is returned. *)
Definition req_addmethod (req : element json) (method : string)
    (kwargs : Dict.t json) : IO (element json) :=
  match SubElement req method kwargs with
  | Ret req' => io_ret req'
  | Raise ex =>
      if is_Exception ex then
        print ("Error adding request method: " ++ str_exn ex) ;; io_ret req
      else io_raise ex
  end.

(** A loop that adds one method per item. *)
Fixpoint add_methods {A : Type} (req : element json) (items : list A)
    (method : string) (kwargs_of : A -> Dict.t json) : IO (element json) :=
  match items with
  | [] => io_ret req
  | item :: rest =>
      req <- req_addmethod req method (kwargs_of item) ;;
      add_methods req rest method kwargs_of
  end.

Definition set_opt (k : string) (v : option string) (kwargs : Dict.t json)
  : Dict.t json :=
  match v with
  | Some s => Dict.set k (JStr s) kwargs
  | None => kwargs
  end.

(** Lines 367-387 of [do_query]. *)
Definition do_query_request (config : Config.t) (args : Args.query)
  : IO (element json) :=
  let req := get_rpcrequest config in
  let kwargs := Dict.empty in
  let kwargs := if Args.q_own args then Dict.set "own" (JStr "1") kwargs
                else kwargs in
  let kwargs := set_opt "limit" (option_map str_int (Args.q_limit args)) kwargs in
  let kwargs := set_opt "listed" (option_map str_int (Args.q_listed args)) kwargs in
  let kwargs := set_opt "type" (option_map str_int (Args.q_type args)) kwargs in
  let kwargs := set_opt "start" (option_map str_int (Args.q_start args)) kwargs in
  let kwargs := set_opt "stop" (option_map str_int (Args.q_stop args)) kwargs in
  add_methods req (Args.q_idorip args) "lookup"
    (fun item =>
       match item with
       | IdInt _ =>
           Dict.update [("id", JStr (Validators.str_ident item))] kwargs
       | IdIP _ =>
           Dict.update [("ip", JStr (Validators.str_ident item))] kwargs
       end).

(** Lines 439-450 of [do_add]. *)
Definition do_add_request (config : Config.t) (args : Args.add)
  : IO (element json) :=
  let req := get_rpcrequest config in
  let kwargs := Dict.empty in
  let kwargs := set_opt "type" (option_map str_int (Args.a_type args)) kwargs in
  let kwargs := set_opt "port" (option_map str_int (Args.a_port args)) kwargs in
  let kwargs := set_opt "comment" (Args.a_comment args) kwargs in
  add_methods req (Args.a_ip args) "add"
    (fun ip => Dict.update [("ip", JStr (Validators.str_ip ip))] kwargs).

(** Lines 341-342 of [do_types]. *)
Definition do_types_request (config : Config.t) : IO (element json) :=
  let req := get_rpcrequest config in
  req_addmethod req "typelist" Dict.empty.

(** Lines 469-472 of [do_remove]. *)
Definition do_remove_request (config : Config.t) (args : Args.remove)
  : IO (element json) :=
  let req := get_rpcrequest config in
  add_methods req (Args.r_id args) "remove"
    (fun id => [("id", JStr (str_int id))]).

(** Lines 491-498 of [do_update]. *)
Definition do_update_request (config : Config.t) (args : Args.update)
  : IO (element json) :=
  let req := get_rpcrequest config in
  let kwargs := Dict.empty in
  let kwargs := set_opt "comment" (Args.u_comment args) kwargs in
  add_methods req (Args.u_id args) "update"
    (fun id => Dict.update [("id", JStr (str_int id))] kwargs).

End WithRuntime.
End Request.

(** ** The RPC exchange and the response parser *)

Module Response.

(** What [send_rpcrequest] returns: for each tag, the attribute
    dictionaries of the children with that tag. *)
Definition channels : Type := Dict.t (list (Dict.t string)).

(** The body of the loop at lines 227-230. *)
Definition group_step (ret : channels) (el : element string) : channels :=
  let ret := if negb (Dict.mem (tag el) ret)
             then Dict.set (tag el) [] ret else ret in
  match Dict.get (tag el) ret with
  | Some l => Dict.set (tag el) (l ++ [attrib el])%list ret
  | None => ret
  end.

(** A channel after more attribute dictionaries were appended to it. *)
Definition extended {A : Type} (o : option (list A)) (l : list A)
  : option (list A) :=
  match l with
  | [] => o
  | _ => Some (match o with Some x => x | None => [] end ++ l)%list
  end.

(** The tags of a list in the order in which each is first seen. *)
Fixpoint first_seen (tags : list string) : list string :=
  match tags with
  | [] => []
  | t :: rest =>
      t :: filter (fun u => negb (String.eqb u t)) (first_seen rest)
  end.

(** The children with a given tag, in document order. *)
Definition with_tag (t : string) (els : list (element string))
  : list (element string) :=
  filter (fun el => String.eqb (tag el) t) els.

(** [for el in xmlobj: ...] from [ret = {}] *)
Definition group_children (xmlobj : element string) : channels :=
  fold_left group_step (children xmlobj) Dict.empty.

(** [xmlobj.find('./name').text] *)
Definition find_text (xmlobj : element string) (name : string)
  : IO (option string) :=
  match find_child name (children xmlobj) with
  | Some el => io_ret (text el)
  | None =>
      io_raise (AttributeError "'NoneType' object has no attribute 'text'")
  end.

(** [prefix + x] where [x] is a text or [None] *)
Definition concat_text (prefix : string) (x : option string) : IO string :=
  match x with
  | Some s => io_ret (prefix ++ s)
  | None =>
      io_raise (TypeError "can only concatenate str (not NoneType) to str")
  end.

Section WithRuntime.
Context {rt : Runtime}.
Local Open Scope io_scope.

Definition get_rawxml (root : element json) : IO string :=
  match xml_write root with
  | inl xmlraw => io_ret xmlraw
  | inr ex =>
      print ("Error generating request body XML: " ++ ex) ;;
      sys_exit (-1)
  end.

(** [conn.request("POST", "/rpc2", xmlreq)] up to [et.fromstring]: one
    more body is on the wire, and the exchange has its outcome. *)
Definition post (xmlreq : string) : IO exchange :=
  fun w =>
    (World (stdout w) (posts w ++ [xmlreq])%list,
     Ret (https_post (List.length (posts w)) xmlreq)).

Definition send_rpcrequest (req : element json) (printxmlres : bool)
  : IO channels :=
  xmlreq <- get_rawxml req ;;
  ex <- post xmlreq ;;
  (* the locals [xmlres] and [xmlobj], bound only where the [try] block
     got to its end *)
  locals <- match ex with
            | Replies xmlres xmlobj => io_ret (Some (xmlres, xmlobj))
            | Fails _ msg =>
                print ("Error retrieving RPC response: " ++ msg) ;;
                io_ret None
            end ;;
  xmlobj <- match locals with
            | Some (_, xmlobj) => io_ret xmlobj
            | None => io_raise (UnboundLocalError "xmlobj")
            end ;;
  if negb (String.eqb (tag xmlobj) "response") then
    print "Error: invalid XML response received..." ;;
    sys_exit (-1)
  else
    match Dict.get "type" (attrib xmlobj) with
    | None =>
        print "Error: missing response type attribute..." ;;
        sys_exit (-1)
    | Some type =>
        if negb (String.eqb type "success" || String.eqb type "error") then
          print ("Error: Unknown response type received: " ++ type) ;;
          sys_exit (-1)
        else if String.eqb type "error" then
          code <- find_text xmlobj "code" ;;
          message <- find_text xmlobj "message" ;;
          data <- find_text xmlobj "data" ;;
          print "Error received from RPC server:" ;;
          print "" ;;
          l <- concat_text "Code:    " code ;;
          print l ;;
          l <- concat_text "Message: " message ;;
          print l ;;
          l <- concat_text "Data:    " data ;;
          print l ;;
          sys_exit (-1)
        else
          (if printxmlres then
             match locals with
             | Some (xmlres, _) => print xmlres
             | None => io_raise (UnboundLocalError "xmlres")
             end
           else io_ret tt) ;;
          io_ret (group_children xmlobj)
    end.

End WithRuntime.
End Response.

(** ** The query table *)

Module Table.

(** [cols]: for each column key, its label and its current width. *)
Definition columns : Type := Dict.t (string * nat).

Definition cols0 : columns :=
  [("timestamp", ("Time", 5%nat)); ("id", ("ID", 3%nat));
   ("ip", ("IP", 3%nat)); ("type", ("Type", 5%nat));
   ("listed", ("Listed", 7%nat)); ("comment", ("Comment", 8%nat))].

(** [c * n] for a one-character string *)
Fixpoint repeat_str (c : string) (n : nat) : string :=
  match n with
  | O => ""
  | S n' => c ++ repeat_str c n'
  end.

(** [s.ljust(width)] *)
Definition ljust (s : string) (width : nat) : string :=
  s ++ repeat_str " " (width - String.length s).

(** Lines 399-403: the widths grow to fit the row; a key the row lacks
    is passed over. *)
Definition widen (cols : columns) (r : Dict.t string) : columns :=
  fold_left
    (fun cols k =>
       match Dict.get k r with
       | None => cols
       | Some v =>
           match Dict.get k cols with
           | Some (label, width) =>
               if (width <? String.length v)%nat
               then Dict.set k (label, S (String.length v)) cols
               else cols
           | None => cols
           end
       end)
    (Dict.keys cols) cols.

(** Lines 406-413: the header and the rule under it. *)
Fixpoint header (cols : columns) (headtext headline : string)
  : string * string :=
  match cols with
  | [] => (headtext, headline)
  | (_, (label, width)) :: rest =>
      let '(headtext, headline) :=
        if (0 <? String.length headtext)%nat
        then (headtext ++ " ", headline ++ " ")
        else (headtext, headline) in
      header rest (headtext ++ ljust label width)
             (headline ++ repeat_str "=" width)
  end.

(** Lines 419-423: the line of one row; [r[k]] raises [KeyError] for a
    key the row lacks. *)
Fixpoint row_line (cols : columns) (r : Dict.t string) (line : string)
  : outcome string :=
  match cols with
  | [] => Ret line
  | (k, (_, width)) :: rest =>
      let line := if (0 <? String.length line)%nat then line ++ " " else line in
      match Dict.get k r with
      | Some v => row_line rest r (line ++ ljust v width)
      | None => Raise (KeyError k)
      end
  end.

Section WithRuntime.
Context {rt : Runtime}.
Local Open Scope io_scope.

(** Lines 395-404 for one row. *)
Definition scan_row (st : columns * list (Dict.t string)) (r : Dict.t string)
  : IO (columns * list (Dict.t string)) :=
  r <- match Dict.get "timestamp" r with
       | Some ts =>
           iso <- lift (timestamp_iso ts) ;;
           io_ret (Dict.set "timestamp" iso r)
       | None => io_ret r
       end ;;
  io_ret (widen (fst st) r, (snd st ++ [r])%list).

Fixpoint scan_rows (st : columns * list (Dict.t string))
    (rows : list (Dict.t string)) : IO (columns * list (Dict.t string)) :=
  match rows with
  | [] => io_ret st
  | r :: rest => st <- scan_row st r ;; scan_rows st rest
  end.

(** Lines 391-424 of [do_query]: the table of the [result] channel.  The
    rows are returned for the count in the summary line. *)
Definition do_query_table (res : Response.channels)
  : IO (list (Dict.t string)) :=
  match Dict.get "result" res with
  | None => io_ret []
  | Some rows =>
      st <- scan_rows (cols0, []) rows ;;
      let '(cols, results) := st in
      let '(headtext, headline) := header cols "" "" in
      print headtext ;;
      print headline ;;
      for_each results (fun r =>
        line <- lift (row_line cols r "") ;;
        print line) ;;
      io_ret results
  end.

End WithRuntime.
End Table.

(** ** A runtime for examples *)

(** Decimal integers, dotted IPv4 text, and an environment that is given:
    enough to run the script's functions on concrete arguments. *)
Module Example.

Definition digit_of (c : ascii) : option Z :=
  let n := Z.of_nat (nat_of_ascii c) in
  if (48 <=? n) && (n <=? 57) then Some (n - 48) else None.

Fixpoint digits_from (s : string) (acc : Z) : option Z :=
  match s with
  | EmptyString => Some acc
  | String c s' =>
      match digit_of c with
      | Some d => digits_from s' (10 * acc + d)
      | None => None
      end
  end.

Definition digits (s : string) : option Z :=
  match s with
  | EmptyString => None
  | _ => digits_from s 0
  end.

Definition invalid_literal (s : string) : exn :=
  ValueError ("invalid literal for int() with base 10: '" ++ s ++ "'").

(** [int] on an optional sign and decimal digits. *)
Definition ascii_int (s : string) : outcome Z :=
  match s with
  | String "-" s' =>
      match digits s' with
      | Some n => Ret (- n)
      | None => Raise (invalid_literal s)
      end
  | String "+" s' =>
      match digits s' with
      | Some n => Ret n
      | None => Raise (invalid_literal s)
      end
  | _ =>
      match digits s with
      | Some n => Ret n
      | None => Raise (invalid_literal s)
      end
  end.

(** [s.split(sep)] *)
Fixpoint split (sep : ascii) (s : string) : list string :=
  match s with
  | EmptyString => [""]
  | String c s' =>
      if Ascii.eqb c sep then "" :: split sep s'
      else match split sep s' with
           | w :: ws => String c w :: ws
           | [] => [String c ""]
           end
  end.

Definition octet (s : string) : option Z :=
  match digits s with
  | Some n => if n <=? 255 then Some n else None
  | None => None
  end.

Definition dotted (s : string) : option Z :=
  match map octet (split "." s) with
  | [Some a; Some b; Some c; Some d] =>
      Some (((a * 256 + b) * 256 + c) * 256 + d)
  | _ => None
  end.

(** [a.b.c.d] or [a.b.c.d/len] *)
Definition ipv4_text (s : string) : option (version * Z * Z) :=
  match split "/" s with
  | [a] =>
      match dotted a with
      | Some ip => Some (V4, ip, 32)
      | None => None
      end
  | [a; p] =>
      match dotted a, digits p with
      | Some ip, Some plen => Some (V4, ip, plen)
      | _, _ => None
      end
  | _ => None
  end.

Definition dotted_str (ip : Z) : string :=
  str_int (ip / 16777216 mod 256) ++ "." ++ str_int (ip / 65536 mod 256) ++ "."
  ++ str_int (ip / 256 mod 256) ++ "." ++ str_int (ip mod 256).

Definition ipv4_str (o : ipobj) : string :=
  match o with
  | IPAddr a => dotted_str (addr_int a)
  | IPNet n =>
      dotted_str (addr_int (network_address n)) ++ "/" ++ str_int (prefixlen n)
  end.

(** The environment: there is no clock, every request serializes to the
    same body, nothing at any path parses, and every exchange times out. *)
Definition runtime : Runtime := {|
  int_of_str := ascii_int;
  ip_text := ipv4_text;
  ip_str := ipv4_str;
  timestamp_iso := fun _ => Raise (OtherError "no clock");
  xml_write := fun _ => inl "<request />";
  json_loads := fun _ => None;
  https_post := fun _ _ => Fails Timeout "timed out"
|}.

(** The same with a server that answers every POST with [ex]. *)
Definition answering (ex : exchange) : Runtime := {|
  int_of_str := ascii_int;
  ip_text := ipv4_text;
  ip_str := ipv4_str;
  timestamp_iso := fun _ => Raise (OtherError "no clock");
  xml_write := fun _ => inl "<request />";
  json_loads := fun _ => None;
  https_post := fun _ _ => ex
|}.

(** The same with a [json.load] that reads [j] from every file. *)
Definition reading (j : option json) : Runtime := {|
  int_of_str := ascii_int;
  ip_text := ipv4_text;
  ip_str := ipv4_str;
  timestamp_iso := fun _ => Raise (OtherError "no clock");
  xml_write := fun _ => inl "<request />";
  json_loads := fun _ => j;
  https_post := fun _ _ => Fails Timeout "timed out"
|}.

End Example.

(** Documents and a request for the examples. *)
Module Fixtures.

Definition r1 : Dict.t string := [("id", "1"); ("ip", "192.0.2.1")].
Definition r2 : Dict.t string := [("id", "2"); ("ip", "192.0.2.2")].
Definition w1 : Dict.t string := [("data", "Rate limited")].

Definition success_doc : element string :=
  Element "response" [("type", "success")] None
    [Element "result" r1 None []; Element "warning" w1 None [];
     Element "result" r2 None []].

Definition error_doc : element string :=
  Element "response" [("type", "error")] None
    [Element "code" [] (Some "100") [];
     Element "message" [] (Some "Bad key") [];
     Element "data" [] (Some "detail") []].

Definition request : element json :=
  Request.get_rpcrequest (Config.Make (JStr "secret") (JBool false) (JBool false)).

End Fixtures.

(** ** The notices, the type table and the commands *)

Module Presenter.

(** [sep.join(l)] *)
Fixpoint join (sep : string) (l : list string) : string :=
  match l with
  | [] => ""
  | [x] => x
  | x :: rest => x ++ sep ++ join sep rest
  end.

(** The loop [for k in dbg] of the three [show_] functions: one
    [key=value] per attribute other than [data]. *)
Definition params_of (dbg : Dict.t string) : list string :=
  fold_left
    (fun params k =>
       if String.eqb k "data" then params
       else match Dict.get k dbg with
            | Some v => (params ++ [(k ++ "=" ++ v)%string])%list
            | None => params
            end)
    (Dict.keys dbg) [].

(** The body of the loop over a channel: the line printed for one entry;
    [dbg['data']] raises [KeyError] for an entry without [data]. *)
Definition entry_line (prefix : string) (dbg : Dict.t string) : outcome string :=
  match Dict.get "data" dbg with
  | None => Raise (KeyError "data")
  | Some msg =>
      let info := join ", " (params_of dbg) in
      let info := if (0 <? String.length info)%nat
                  then " (" ++ info ++ ")" else info in
      Ret (prefix ++ msg ++ info)
  end.

(** The three [show_] functions are the same text up to the channel and
    the prefix. *)
Definition show_channel (channel prefix : string) (res : Response.channels)
  : IO unit :=
  match Dict.get channel res with
  | None => io_ret tt
  | Some entries =>
      for_each entries (fun dbg =>
        io_bind (lift (entry_line prefix dbg)) print)
  end.

Definition show_success (res : Response.channels) : IO unit :=
  show_channel "success" "Success: " res.

Definition show_warnings (res : Response.channels) : IO unit :=
  show_channel "warning" "WARNING: " res.

Definition show_debuginfo (config : Config.t) (res : Response.channels)
  : IO unit :=
  if negb (truthy (Config.debug config)) then io_ret tt
  else show_channel "debug" "Debug: " res.

(** [s.ljust(width, fill)] for a one-character [fill] *)
Definition ljust_fill (s : string) (width : nat) (fill : string) : string :=
  s ++ Table.repeat_str fill (width - String.length s).

(** Lines 349-352 of [do_types]: the longest description. *)
Fixpoint longest_description (types : list (Dict.t string)) (desclen : nat)
  : outcome nat :=
  match types with
  | [] => Ret desclen
  | type :: rest =>
      match Dict.get "description" type with
      | None => Raise (KeyError "description")
      | Some description =>
          if (desclen <? String.length description)%nat
          then longest_description rest (String.length description)
          else longest_description rest desclen
      end
  end.

(** Line 358: the row of one type. *)
Definition type_row (type : Dict.t string) : outcome string :=
  match Dict.get "type" type with
  | None => Raise (KeyError "type")
  | Some code =>
      match Dict.get "description" type with
      | None => Raise (KeyError "description")
      | Some description => Ret (Table.ljust code 6 ++ description)
      end
  end.

(** Lines 345-360 of [do_types]. *)
Definition do_types_table (res : Response.channels) : IO unit :=
  match Dict.get "typelist" res with
  | None => print "Error: missing typelist"
  | Some types =>
      io_bind (lift (longest_description types 0)) (fun desclen =>
      let desclen := (desclen + 1)%nat in
      io_bind (print "Type  Description") (fun _ =>
      io_bind (print (ljust_fill "===== " (desclen + 6) "=")) (fun _ =>
      io_bind (for_each types (fun type =>
                 io_bind (lift (type_row type)) print)) (fun _ =>
      show_warnings res))))
  end.

Section WithRuntime.
Context {rt : Runtime}.
Local Open Scope io_scope.

Definition do_types (config : Config.t) : IO unit :=
  req <- Request.do_types_request config ;;
  res <- Response.send_rpcrequest req false ;;
  do_types_table res.

(** In the four commands below [delay] is the text of
    [str(endts - startts)], the time the run took. *)
Definition do_query (config : Config.t) (args : Args.query) (delay : string)
  : IO unit :=
  req <- Request.do_query_request config args ;;
  res <- Response.send_rpcrequest req false ;;
  results <- Table.do_query_table res ;;
  show_warnings res ;;
  show_debuginfo config res ;;
  print (str_int (Z.of_nat (List.length results)) ++ " results found in " ++ delay).

Definition do_add (config : Config.t) (args : Args.add) (delay : string)
  : IO unit :=
  req <- Request.do_add_request config args ;;
  res <- Response.send_rpcrequest req false ;;
  show_success res ;;
  show_warnings res ;;
  show_debuginfo config res ;;
  print ("Completed in " ++ delay).

Definition do_remove (config : Config.t) (args : Args.remove) (delay : string)
  : IO unit :=
  req <- Request.do_remove_request config args ;;
  res <- Response.send_rpcrequest req false ;;
  show_success res ;;
  show_warnings res ;;
  show_debuginfo config res ;;
  print ("Completed in " ++ delay).

Definition do_update (config : Config.t) (args : Args.update) (delay : string)
  : IO unit :=
  req <- Request.do_update_request config args ;;
  res <- Response.send_rpcrequest req false ;;
  show_success res ;;
  show_warnings res ;;
  show_debuginfo config res ;;
  print ("Completed in " ++ delay).

End WithRuntime.
End Presenter.

(** ** Start-up and the [config] command *)

Module Startup.
Section WithRuntime.
Context {rt : Runtime}.
Local Open Scope outcome_scope.

(** [parser.error(...)]: the usage text and exit status 2. *)
Definition parser_error {A : Type} : outcome A := Raise (SystemExit 2).

(** Lines 522-530: the file is loaded over the defaults, a key on the
    command line replaces the loaded one, and every command but [config]
    needs a key. *)
Definition startup (fs : string -> Config.fsentry) (conffile : string)
    (rpckey : option string) (command : string) : outcome Config.t :=
  config <- Config.load_config fs conffile Config.defaults ;;
  let config :=
    match rpckey with
    | Some key =>
        Config.Make (JStr key) (Config.staging config) (Config.debug config)
    | None => config
    end in
  if negb (String.eqb command "config") then
    match Config.rpckey config with
    | JNull => parser_error
    | _ => Ret config
    end
  else Ret config.

End WithRuntime.
End Startup.

Module ConfigCommand.

(** What the [config] command needs beyond [Runtime]:
    - [str_json] is [str(x)];
    - [json_dumps] is the text [json.dump(config, fc)] writes;
    - [open_w] is the text of the exception when [open(path, 'w')] raises,
      [None] when it returns. *)
Class Files : Type := {
  str_json : json -> string;
  json_dumps : Config.t -> string;
  open_w : string -> option string
}.

(** The console and the disk. *)
Record machine : Type := Machine {
  console : world;
  disk : string -> Config.fsentry
}.

(** The namespace of the [config] command. *)
Record args : Type := Args {
  c_rpckey : option string;
  c_staging : option string;
  c_debug : option string
}.

Definition say (s : string) (m : machine) : machine :=
  Machine (World (stdout (console m) ++ [s]) (posts (console m))) (disk m).

Definition is_None {A : Type} (o : option A) : bool :=
  match o with
  | None => true
  | Some _ => false
  end.

(** [x == s] for an optional string [x] *)
Definition is_str (o : option string) (s : string) : bool :=
  match o with
  | Some x => String.eqb x s
  | None => false
  end.

Section WithFiles.
Context {files : Files}.

(** Lines 303-315: the settings are printed. *)
Definition show_config (config : Config.t) (m : machine) : machine :=
  let m := say "Configuration:" m in
  let m := say "" m in
  let m := match Config.rpckey config with
           | JNull => say "RPC Key: not set" m
           | key => say ("RPC Key: " ++ str_json key) m
           end in
  let m := if truthy (Config.staging config)
           then say "Staging: Yes" m else say "Staging: No" m in
  if truthy (Config.debug config) then say "Debug: Yes" m else m.

(** Lines 317-328: the flags are applied to the configuration. *)
Definition apply_flags (a : args) (config : Config.t) : Config.t :=
  let config :=
    if is_str (c_staging a) "yes"
    then Config.Make (Config.rpckey config) (JBool true) (Config.debug config)
    else if is_str (c_staging a) "no"
    then Config.Make (Config.rpckey config) (JBool false) (Config.debug config)
    else config in
  let config :=
    if is_str (c_debug a) "yes"
    then Config.Make (Config.rpckey config) (Config.staging config) (JBool true)
    else if is_str (c_debug a) "no"
    then Config.Make (Config.rpckey config) (Config.staging config) (JBool false)
    else config in
  match c_rpckey a with
  | Some key =>
      Config.Make (JStr key) (Config.staging config) (Config.debug config)
  | None => config
  end.

(** [do_config]: the configuration it leaves is returned. *)
Definition do_config (a : args) (conffile : string) (config : Config.t)
    (m : machine) : machine * outcome Config.t :=
  if is_None (c_rpckey a) && is_None (c_staging a) && is_None (c_debug a) then
    (show_config config m, Ret config)
  else
    let config := apply_flags a config in
    match open_w conffile with
    | Some ex =>
        (say ("Unable to update configuration: " ++ ex) m, Raise (SystemExit 1))
    | None =>
        let m := Machine (console m)
                   (fun path => if String.eqb path conffile
                                then Config.File (json_dumps config)
                                else disk m path) in
        (say "Configuration updated" m, Ret config)
    end.

(** The dictionary [json.dump] writes. *)
Definition to_json (config : Config.t) : json :=
  JObj [("rpckey", Config.rpckey config); ("staging", Config.staging config);
        ("debug", Config.debug config)].

End WithFiles.
End ConfigCommand.

(** ** Options with choices *)

Module Choices.
Section WithRuntime.
Context {rt : Runtime}.

(** The [--listed] option of [query]: [type=int, choices=range(0, 3)].
    [argparse] converts the string, then refuses a value that is not
    among the choices with the usage error. *)
Definition listed (arg_string : string) : outcome Z :=
  o_bind (Args.get_value int_of_str arg_string) (fun value =>
    if negb ((0 <=? value) && (value <? 3)) then Raise (SystemExit 2)
    else Ret value).

End WithRuntime.
End Choices.

(** ** More of the example environment *)

Module ExampleMore.

(** A number as decimal digits, at least [width] of them. *)
Definition padded (width : nat) (n : Z) : string :=
  let s := str_int n in
  Table.repeat_str "0" (width - String.length s) ++ s.

(** [datetime.fromtimestamp(int(s)).isoformat()] where the local time is
    UTC, for the seconds since 1970 that [Example.ascii_int] reads. *)
Definition utc_iso (s : string) : outcome string :=
  match Example.ascii_int s with
  | Raise e => Raise e
  | Ret ts =>
      if ts <? 0 then Raise (OtherError "timestamp out of range")
      else
        let days := ts / 86400 in
        let secs := ts mod 86400 in
        let z := days + 719468 in
        let era := z / 146097 in
        let doe := z - era * 146097 in
        let yoe := (doe - doe / 1460 + doe / 36524 - doe / 146096) / 365 in
        let doy := doe - (365 * yoe + yoe / 4 - yoe / 100) in
        let mp := (5 * doy + 2) / 153 in
        let d := doy - (153 * mp + 2) / 5 + 1 in
        let m := if mp <? 10 then mp + 3 else mp - 9 in
        let y := yoe + era * 400 + (if m <=? 2 then 1 else 0) in
        Ret (padded 4 y ++ "-" ++ padded 2 m ++ "-" ++ padded 2 d ++ "T" ++
             padded 2 (secs / 3600) ++ ":" ++ padded 2 (secs / 60 mod 60) ++ ":" ++
             padded 2 (secs mod 60))
  end.

(** The attributes of an element as XML text, when all are strings. *)
Fixpoint attrs_xml (a : Dict.t json) : option string :=
  match a with
  | [] => Some ""
  | (k, JStr v) :: rest =>
      match attrs_xml rest with
      | Some s => Some (" " ++ k ++ "=" ++ String (ascii_of_nat 34) v ++
                        String (ascii_of_nat 34) s)
      | None => None
      end
  | _ => None
  end.

(** An element as XML text, for attribute values without markup
    characters; [None] where an attribute is not a string. *)
Fixpoint element_xml (e : element json) : option string :=
  match e with
  | Element t a x c =>
      match attrs_xml a with
      | None => None
      | Some attrs =>
          match c, x with
          | [], None => Some ("<" ++ t ++ attrs ++ " />")
          | _, _ =>
              match (fix all (l : list (element json)) : option string :=
                       match l with
                       | [] => Some ""
                       | e' :: l' =>
                           match element_xml e', all l' with
                           | Some s1, Some s2 => Some (s1 ++ s2)
                           | _, _ => None
                           end
                       end) c with
              | Some inner =>
                  Some ("<" ++ t ++ attrs ++ ">" ++
                        match x with Some s => s | None => "" end ++ inner ++
                        "</" ++ t ++ ">")
              | None => None
              end
          end
      end
  end.

(** [ElementTree.write] with the XML declaration. *)
Definition write_xml (root : element json) : string + string :=
  match element_xml root with
  | Some s =>
      inl ("<?xml version='1.0' encoding='UTF-8'?>" ++
           String (ascii_of_nat 10) s)
  | None => inr "cannot serialize attribute value (not a string)"
  end.

(** A runtime that writes XML, has a clock at UTC, reads [j] from every
    file and answers every POST with [ex]. *)
Definition runtime (j : option json) (ex : exchange) : Runtime := {|
  int_of_str := Example.ascii_int;
  ip_text := Example.ipv4_text;
  ip_str := Example.ipv4_str;
  timestamp_iso := utc_iso;
  xml_write := write_xml;
  json_loads := fun _ => j;
  https_post := fun _ _ => ex
|}.

(** The same with a fixed request body. *)
Definition clocked (ex : exchange) : Runtime := {|
  int_of_str := Example.ascii_int;
  ip_text := Example.ipv4_text;
  ip_str := Example.ipv4_str;
  timestamp_iso := utc_iso;
  xml_write := fun _ => inl "<request />";
  json_loads := fun _ => None;
  https_post := fun _ _ => ex
|}.

(** A reply to a query: one row and a warning. *)
Definition rows_doc : element string :=
  Element "response" [("type", "success")] None
    [Element "result"
       [("ip", "192.0.2.1"); ("id", "7"); ("type", "3"); ("comment", "");
        ("listed", "1"); ("timestamp", "1700000000")] None [];
     Element "warning" [("data", "Rate limited")] None []].

(** [str] of the values a configuration written by the script holds. *)
Definition str_simple (x : json) : string :=
  match x with
  | JNull => "None"
  | JBool true => "True"
  | JBool false => "False"
  | JInt n => str_int n
  | JStr s => s
  | _ => "..."
  end.

(** JSON text of such values, for strings without quotes or escapes. *)
Definition dumps_simple (x : json) : string :=
  match x with
  | JNull => "null"
  | JBool true => "true"
  | JBool false => "false"
  | JInt n => str_int n
  | JStr s => String (ascii_of_nat 34) s ++ String (ascii_of_nat 34) ""
  | _ => "null"
  end.

Definition quoted (s : string) : string :=
  String (ascii_of_nat 34) s ++ String (ascii_of_nat 34) "".

(** A disk that can be written, or one where every [open] for writing
    fails with [ex]. *)
Definition files (failure : option string) : ConfigCommand.Files := {|
  ConfigCommand.str_json := str_simple;
  ConfigCommand.json_dumps := fun config =>
    "{" ++ quoted "rpckey" ++ ": " ++ dumps_simple (Config.rpckey config) ++ ", "
        ++ quoted "staging" ++ ": " ++ dumps_simple (Config.staging config) ++ ", "
        ++ quoted "debug" ++ ": " ++ dumps_simple (Config.debug config) ++ "}";
  ConfigCommand.open_w := fun _ => failure
|}.

(** Replies for the examples. *)
Definition notices_doc : element string :=
  Element "response" [("type", "success")] None
    [Element "success" [("data", "Added"); ("ip", "192.0.2.1")] None [];
     Element "warning" [("data", "Rate limited")] None [];
     Element "debug" [("data", "took 3 ms")] None []].

Definition types_doc : element string :=
  Element "response" [("type", "success")] None
    [Element "typelist" [("type", "3"); ("description", "IRC Drone")] None [];
     Element "typelist" [("type", "19"); ("description", "Abused VPN Service")]
       None []].

Definition row1 : Dict.t string :=
  [("ip", "192.0.2.1"); ("id", "7"); ("type", "3"); ("comment", "");
   ("listed", "1"); ("timestamp", "1700000000")].

End ExampleMore.

(** ** Vocabulary of the properties *)

Module Specs.

(** The lines a channel prints with a prefix: none when the reply has no
    such channel, the line of each entry otherwise. *)
Definition notices (prefix : string) (channel : option (list (Dict.t string)))
    (lines : list string) : Prop :=
  match channel with
  | None => lines = []
  | Some entries =>
      Forall2 (fun dbg line => Presenter.entry_line prefix dbg = Ret line)
              entries lines
  end.

(** The attributes of an entry other than [data]. *)
Definition others (dbg : Dict.t string) : Dict.t string :=
  filter (fun kv => negb (String.eqb (fst kv) "data")) dbg.

(** The length of the description of a type, 0 when it has none. *)
Definition desc_len (type : Dict.t string) : nat :=
  match Dict.get "description" type with
  | Some description => String.length description
  | None => O
  end.

(** A type row has a code and a description. *)
Definition is_type (type : Dict.t string) : Prop :=
  Dict.mem "type" type = true /\ Dict.mem "description" type = true.

(** What the keyword arguments of [do_query] hold. *)
Definition query_kwargs (args : Args.query) : Dict.t json :=
  Request.set_opt "stop" (option_map str_int (Args.q_stop args))
    (Request.set_opt "start" (option_map str_int (Args.q_start args))
       (Request.set_opt "type" (option_map str_int (Args.q_type args))
          (Request.set_opt "listed" (option_map str_int (Args.q_listed args))
             (Request.set_opt "limit" (option_map str_int (Args.q_limit args))
                (if Args.q_own args then Dict.set "own" (JStr "1") Dict.empty
                 else Dict.empty))))).

(** A column after the width loop has seen a row. *)
Definition widen1 (r : Dict.t string) (c : string * (string * nat))
  : string * (string * nat) :=
  match Dict.get (fst c) r with
  | Some v =>
      if (snd (snd c) <? String.length v)%nat
      then (fst c, (fst (snd c), S (String.length v)))
      else c
  | None => c
  end.

(** The same keys and labels, and no width smaller. *)
Definition wider (cols cols' : Table.columns) : Prop :=
  Forall2 (fun c c' => fst c' = fst c /\ fst (snd c') = fst (snd c) /\
                       (snd (snd c) <= snd (snd c'))%nat) cols cols'.

(** Every value of the row is at most as long as its column is wide. *)
Definition fits (cols : Table.columns) (r : Dict.t string) : Prop :=
  Forall (fun c => forall v, Dict.get (fst c) r = Some v ->
                             (String.length v <= snd (snd c))%nat) cols.

(** The row has a value for every column. *)
Definition has_all (cols : Table.columns) (r : Dict.t string) : Prop :=
  Forall (fun c => Dict.mem (fst c) r = true) cols.

(** A result row with all six attributes. *)
Definition complete (r : Dict.t string) : Prop := has_all Table.cols0 r.

(** The length of a line of the table that starts from [n] characters. *)
Fixpoint line_len (cols : Table.columns) (n : nat) : nat :=
  match cols with
  | [] => n
  | (_, (_, width)) :: rest =>
      line_len rest ((if (0 <? n)%nat then S n else n) + width)%nat
  end.

End Specs.

(** * Properties *)

(** ** Dictionaries *)

Module DictFacts.
Section Facts.
Context {V : Type}.
Implicit Types (d : Dict.t V) (k : string) (v : V).

Lemma get_set k k' v d :
  Dict.get k (Dict.set k' v d) =
  if String.eqb k k' then Some v else Dict.get k d.
Proof.
  induction d as [|[k0 v0] d IH]; simpl.
  - reflexivity.
  - destruct (String.eqb_spec k' k0) as [->|Hk'].
    + simpl. destruct (String.eqb k k0); reflexivity.
    + simpl. rewrite IH.
      destruct (String.eqb_spec k k0) as [->|Hk]; [|reflexivity].
      destruct (String.eqb_spec k0 k') as [<-|_]; [contradiction|reflexivity].
Qed.

Lemma get_set_same k v d : Dict.get k (Dict.set k v d) = Some v.
Proof. rewrite get_set, String.eqb_refl. reflexivity. Qed.

Lemma get_set_other k k' v d :
  k <> k' -> Dict.get k (Dict.set k' v d) = Dict.get k d.
Proof.
  intros Hne. rewrite get_set.
  destruct (String.eqb_spec k k'); [contradiction|reflexivity].
Qed.

Lemma mem_In_keys k d : Dict.mem k d = true <-> In k (Dict.keys d).
Proof.
  unfold Dict.mem. induction d as [|[k0 v0] d IH]; simpl.
  - split; [discriminate|tauto].
  - destruct (String.eqb_spec k k0) as [->|Hne].
    + split; auto.
    + rewrite IH. split; [auto|]. intros [Heq|Hin]; [congruence|assumption].
Qed.

Lemma keys_set_present k v d :
  Dict.mem k d = true -> Dict.keys (Dict.set k v d) = Dict.keys d.
Proof.
  unfold Dict.mem, Dict.keys. induction d as [|[k0 v0] d IH]; simpl.
  - discriminate.
  - destruct (String.eqb_spec k k0) as [->|Hne]; simpl.
    + reflexivity.
    + intros H. rewrite IH by assumption. reflexivity.
Qed.

Lemma keys_set_absent k v d :
  Dict.mem k d = false -> Dict.keys (Dict.set k v d) = (Dict.keys d ++ [k])%list.
Proof.
  unfold Dict.mem, Dict.keys. induction d as [|[k0 v0] d IH]; simpl.
  - reflexivity.
  - destruct (String.eqb_spec k k0) as [->|Hne]; simpl.
    + discriminate.
    + intros H. rewrite IH by assumption. reflexivity.
Qed.

(** Keyword arguments that do not name [k] leave it as it was. *)
Lemma get_update_absent k (a b : Dict.t V) :
  Dict.get k b = None -> Dict.get k (Dict.update a b) = Dict.get k a.
Proof.
  unfold Dict.update. revert a.
  induction b as [|[k0 v0] b IH]; intros a Hb; simpl in *.
  - reflexivity.
  - destruct (String.eqb_spec k k0) as [->|Hne]; [discriminate|].
    rewrite IH by assumption. apply get_set_other. assumption.
Qed.

End Facts.
End DictFacts.

(** ** Validators *)

Module ValidatorFacts.
Import Validators.

Lemma ALL_ONES_ones v : ALL_ONES v = Z.ones (max_prefixlen v).
Proof. unfold ALL_ONES. rewrite Z.ones_equiv. destruct v; reflexivity. Qed.

Lemma testbit_ALL_ONES v n :
  0 <= n -> Z.testbit (ALL_ONES v) n = (n <? max_prefixlen v).
Proof.
  intros Hn. rewrite ALL_ONES_ones.
  destruct (Z.ltb_spec n (max_prefixlen v)) as [Hlt|Hge].
  - apply Z.ones_spec_low. lia.
  - apply Z.ones_spec_high. destruct v; simpl in *; lia.
Qed.

(** The netmask of a prefix length and its complement within the width
    of the family share no bit. *)
Lemma land_netmask_hostmask v plen packed :
  0 <= plen ->
  Z.land (Z.land packed (netmask_of v plen))
         (Z.lxor (netmask_of v plen) (ALL_ONES v)) = 0.
Proof.
  intros Hp. apply Z.bits_inj'. intros n Hn.
  rewrite Z.bits_0, !Z.land_spec, Z.lxor_spec.
  unfold netmask_of. rewrite Z.lxor_spec, Z.shiftr_spec by assumption.
  rewrite !testbit_ALL_ONES by lia.
  destruct (Z.ltb_spec n (max_prefixlen v)) as [Hlt|Hge].
  - destruct (n + plen <? max_prefixlen v), (Z.testbit packed n); reflexivity.
  - destruct (Z.ltb_spec (n + plen) (max_prefixlen v)) as [Hlt'|_]; [lia|].
    simpl. apply andb_false_r.
Qed.

Section WithRuntime.
Context {rt : Runtime}.

(** What a successful [ip_network] returned, in terms of the text. *)
Lemma ip_network_Ret val ipn :
  ip_network val = Ret ipn ->
  exists v packed,
    ip_text val = Some (v, packed, prefixlen ipn) /\
    0 <= packed <= ALL_ONES v /\
    0 <= prefixlen ipn <= max_prefixlen v /\
    network_address ipn = Address v (Z.land packed (netmask_of v (prefixlen ipn))).
Proof.
  unfold ip_network. destruct (ip_text val) as [[[v packed] plen]|]; [|discriminate].
  destruct ((0 <=? packed) && (packed <=? ALL_ONES v)) eqn:Hrange; [|discriminate].
  destruct ((0 <=? plen) && (plen <=? max_prefixlen v)) eqn:Hplen; [|discriminate].
  simpl. apply andb_prop in Hrange, Hplen.
  destruct Hrange as [H1 H2], Hplen as [H3 H4].
  apply Z.leb_le in H1, H2, H3, H4.
  destruct (Z.eqb_spec (Z.land packed (netmask_of v plen)) packed) as [Heq|Hne];
    simpl; intros [= <-]; simpl; exists v, packed; repeat split; try assumption.
  rewrite Heq. reflexivity.
Qed.

Lemma querylimit_in_range val v :
  int_of_str val = Ret v -> 1 <= v <= 255 -> querylimit val = Ret v.
Proof.
  intros Hint Hv. unfold querylimit. rewrite Hint. simpl.
  destruct (Z.ltb_spec v 1); [lia|].
  destruct (Z.gtb_spec v 255); [lia|]. reflexivity.
Qed.

Lemma querylimit_too_small val v :
  int_of_str val = Ret v -> v < 1 ->
  querylimit val = Raise (ValueError "value must be greater than 0").
Proof.
  intros Hint Hv. unfold querylimit. rewrite Hint. simpl.
  destruct (Z.ltb_spec v 1); [reflexivity|lia].
Qed.

Lemma querylimit_too_large val v :
  int_of_str val = Ret v -> 255 < v ->
  querylimit val = Raise (ValueError "value must be less than 1001").
Proof.
  intros Hint Hv. unfold querylimit. rewrite Hint. simpl.
  destruct (Z.ltb_spec v 1); [lia|].
  destruct (Z.gtb_spec v 255); [reflexivity|lia].
Qed.

(** C7.  [idorip] tries the integer parse first and returns that integer
    whenever it succeeds, whatever the address parser would say; only
    when [int] raises does the result come from [ipaddr]; when that
    returns [None] too, the [ValueError] carries exactly the message of
    the source. *)
Theorem idorip_int_then_ip (val : string) :
  (forall n, int_of_str val = Ret n -> idorip val = Ret (IdInt n)) /\
  (forall e o, int_of_str val = Raise e -> ipaddr val = Some o ->
               idorip val = Ret (IdIP o)) /\
  (forall e, int_of_str val = Raise e -> ipaddr val = None ->
             idorip val =
             Raise (ValueError
               "value must be either an integer, an IP address or a CIDR address")).
Proof.
  unfold idorip, checkint. repeat split.
  - intros n Hn. rewrite Hn. reflexivity.
  - intros e o He Ho. rewrite He, Ho. reflexivity.
  - intros e He Ho. rewrite He, Ho. reflexivity.
Qed.

(** C8.  For a string [ip_network] accepts, [ipaddr] returns the bare
    network address when the prefix length is the maximum of the
    family, and the network itself otherwise; the network address is
    the address of the text with the netmask applied, so it has no host
    bit, whatever host bits the text had. *)
Theorem ipaddr_host_or_network (val : string) (ipn : network) :
  ip_network val = Ret ipn ->
  let ipa := network_address ipn in
  (prefixlen ipn = max_prefixlen (addr_version ipa) ->
     ipaddr val = Some (IPAddr ipa)) /\
  (prefixlen ipn <> max_prefixlen (addr_version ipa) ->
     ipaddr val = Some (IPNet ipn)) /\
  Z.land (addr_int ipa) (hostmask ipn) = 0 /\
  exists packed,
    ip_text val = Some (addr_version ipa, packed, prefixlen ipn) /\
    addr_int ipa = Z.land packed (netmask ipn).
Proof.
  intros Hnet ipa. unfold ipaddr. rewrite Hnet. fold ipa.
  destruct (ip_network_Ret _ _ Hnet) as (v & packed & Htext & _ & Hplen & Haddr).
  fold ipa in Haddr.
  repeat split.
  - intros Heq. rewrite Heq, Z.eqb_refl. reflexivity.
  - intros Hne.
    destruct (Z.eqb_spec (prefixlen ipn) (max_prefixlen (addr_version ipa)));
      [contradiction|reflexivity].
  - unfold hostmask, netmask. fold ipa. rewrite Haddr. simpl.
    apply land_netmask_hostmask. lia.
  - exists packed. unfold netmask. fold ipa. rewrite Haddr. simpl.
    split; [assumption|reflexivity].
Qed.

End WithRuntime.

(** C6.  At "300" [querylimit] raises, and the text of the error names
    1001 as the bound, which 300 is under, not 256. *)
Theorem querylimit_300_message :
  querylimit (rt := Example.runtime) "300" =
    Raise (ValueError "value must be less than 1001") /\
  querylimit (rt := Example.runtime) "300" <>
    Raise (ValueError "value must be less than 256").
Proof. split; [reflexivity|discriminate]. Qed.

Lemma idorip_int_then_ip_witness :
  idorip (rt := Example.runtime) "42" = Ret (IdInt 42) /\
  idorip (rt := Example.runtime) "192.0.2.77" =
    Ret (IdIP (IPAddr (Address V4 3221226061))) /\
  idorip (rt := Example.runtime) "bogus" =
    Raise (ValueError
      "value must be either an integer, an IP address or a CIDR address").
Proof.
  destruct (idorip_int_then_ip (rt := Example.runtime) "42") as (H1 & _ & _).
  destruct (idorip_int_then_ip (rt := Example.runtime) "192.0.2.77")
    as (_ & H2 & _).
  destruct (idorip_int_then_ip (rt := Example.runtime) "bogus") as (_ & _ & H3).
  split; [apply H1; reflexivity|].
  split; [eapply H2; reflexivity|eapply H3; reflexivity].
Defined.

Lemma ipaddr_host_or_network_witness :
  ipaddr (rt := Example.runtime) "192.0.2.77/24" =
    Some (IPNet (Network (Address V4 3221225984) 24)) /\
  Z.land 3221225984 (hostmask (Network (Address V4 3221225984) 24)) = 0 /\
  ipaddr (rt := Example.runtime) "192.0.2.77" =
    Some (IPAddr (Address V4 3221226061)).
Proof.
  destruct (ipaddr_host_or_network (rt := Example.runtime) "192.0.2.77/24"
              (Network (Address V4 3221225984) 24) eq_refl)
    as (_ & Hnet & Hbits & _).
  destruct (ipaddr_host_or_network (rt := Example.runtime) "192.0.2.77"
              (Network (Address V4 3221226061) 32) eq_refl)
    as (Hhost & _).
  split; [apply Hnet; simpl; lia|].
  split; [exact Hbits|apply Hhost; reflexivity].
Defined.

End ValidatorFacts.

(** ** The request builder *)

Module RequestFacts.
Import Request.

Lemma get_set_opt_other k k' v (d : Dict.t json) :
  k <> k' -> Dict.get k (set_opt k' v d) = Dict.get k d.
Proof.
  intros Hne. destruct v as [s|]; simpl; [|reflexivity].
  apply DictFacts.get_set_other. assumption.
Qed.

Section WithRuntime.
Context {rt : Runtime}.

(** Adding a method returns, prints nothing, and appends one element. *)
Lemma req_addmethod_appends req method kwargs w :
  req_addmethod req method kwargs w =
  (w, Ret (Element (tag req) (attrib req) (text req)
                   (children req ++ [Element method kwargs None []]))).
Proof. destruct req; reflexivity. Qed.

Lemma add_methods_appends {A : Type} (items : list A) method
    (kwargs_of : A -> Dict.t json) :
  forall req w,
    add_methods req items method kwargs_of w =
    (w, Ret (Element (tag req) (attrib req) (text req)
               (children req ++
                map (fun item => Element method (kwargs_of item) None []) items))).
Proof.
  induction items as [|item items IH]; intros req w; simpl.
  - rewrite app_nil_r. destruct req; reflexivity.
  - unfold io_bind. rewrite req_addmethod_appends, IH. simpl.
    rewrite <- app_assoc. reflexivity.
Qed.

(** The root that [get_rpcrequest] makes. *)
Lemma get_rpcrequest_root config :
  let root := get_rpcrequest config in
  tag root = "request" /\
  children root = [] /\
  Dict.get "key" (attrib root) = Some (Config.rpckey config) /\
  Dict.get "staging" (attrib root) =
    (if truthy (Config.staging config) then Some (JStr "1") else None) /\
  Dict.get "debug" (attrib root) =
    (if truthy (Config.debug config) then Some (JStr "1") else None).
Proof.
  unfold get_rpcrequest.
  destruct (truthy (Config.staging config)), (truthy (Config.debug config));
    repeat split; reflexivity.
Qed.

Lemma add_methods_built {A : Type} config (items : list A) method kwargs_of w :
  exists req,
    add_methods (get_rpcrequest config) items method kwargs_of w = (w, Ret req) /\
    built config method items req.
Proof.
  eexists. split; [apply add_methods_appends|].
  destruct (get_rpcrequest_root config) as (Htag & Hch & _).
  unfold built. simpl. rewrite Hch. simpl. rewrite length_map.
  repeat split; try assumption.
  apply Forall_forall. intros el Hin. apply in_map_iff in Hin.
  destruct Hin as (item & <- & _). reflexivity.
Qed.

(** C3.  Whatever the configuration holds, the root of the request
    carries its [rpckey] under [key], carries [staging="1"] exactly when
    [staging] is true and [debug="1"] exactly when [debug] is true; each
    command's request keeps that root and has one method element per
    item it was given, and building it prints nothing. *)
Theorem request_root_and_methods (config : Config.t) (w : world) :
  let root := get_rpcrequest config in
  Dict.get "key" (attrib root) = Some (Config.rpckey config) /\
  (Dict.mem "staging" (attrib root) = truthy (Config.staging config)) /\
  (Dict.mem "debug" (attrib root) = truthy (Config.debug config)) /\
  (forall args, exists req,
      do_query_request config args w = (w, Ret req) /\
      built config "lookup" (Args.q_idorip args) req) /\
  (forall args, exists req,
      do_add_request config args w = (w, Ret req) /\
      built config "add" (Args.a_ip args) req) /\
  (forall args, exists req,
      do_remove_request config args w = (w, Ret req) /\
      built config "remove" (Args.r_id args) req) /\
  (forall args, exists req,
      do_update_request config args w = (w, Ret req) /\
      built config "update" (Args.u_id args) req) /\
  (exists req,
      do_types_request config w = (w, Ret req) /\
      built config "typelist" [tt] req).
Proof.
  intros root.
  destruct (get_rpcrequest_root config) as (Htag & Hch & Hkey & Hst & Hdb).
  fold root in Htag, Hch, Hkey, Hst, Hdb.
  split; [assumption|].
  split.
  { unfold Dict.mem. rewrite Hst.
    destruct (truthy (Config.staging config)); reflexivity. }
  split.
  { unfold Dict.mem. rewrite Hdb.
    destruct (truthy (Config.debug config)); reflexivity. }
  split; [intros args; apply add_methods_built|].
  split; [intros args; apply add_methods_built|].
  split; [intros args; apply add_methods_built|].
  split; [intros args; apply add_methods_built|].
  eexists. split; [apply req_addmethod_appends|].
  unfold built. simpl. fold root. rewrite Hch. simpl.
  repeat split; try assumption. repeat constructor.
Qed.

Lemma add_ip_values_all (vals : list string) :
  Args.add_ip_values vals = Ret (map Validators.ipaddr vals).
Proof.
  unfold Args.add_ip_values.
  induction vals as [|val vals IH]; simpl; [reflexivity|].
  rewrite IH. reflexivity.
Qed.

(** C10.  [ipaddr] returns [None] for a string [ip_network] rejects, and
    the argument layer stores whatever [ipaddr] returned, so no list of
    strings is refused; [do_add] then builds one [add] element per
    string, and the element of a rejected string has the text "None"
    as its [ip] attribute. *)
Theorem unparsable_ip_becomes_None (vals : list string) (config : Config.t)
    (type port : option Z) (comment : option string) (w : world) :
  Args.add_ip_values vals = Ret (map Validators.ipaddr vals) /\
  exists req,
    do_add_request config
      (Args.Add (map Validators.ipaddr vals) type port comment) w
      = (w, Ret req) /\
    map tag (children req) = map (fun _ => "add") vals /\
    forall i val e,
      nth_error vals i = Some val ->
      Validators.ip_network val = Raise e ->
      Validators.ipaddr val = None /\
      exists el,
        nth_error (children req) i = Some el /\
        tag el = "add" /\
        Dict.get "ip" (attrib el) = Some (JStr "None").
Proof.
  split; [apply add_ip_values_all|].
  eexists. split; [apply add_methods_appends|].
  destruct (get_rpcrequest_root config) as (_ & Hch & _).
  simpl. rewrite Hch. simpl. rewrite !map_map. simpl.
  split; [reflexivity|].
  intros i val e Hi Hnet.
  assert (Hnone : Validators.ipaddr val = None)
    by (unfold Validators.ipaddr; rewrite Hnet; reflexivity).
  split; [assumption|].
  eexists. split; [apply map_nth_error; eassumption|].
  simpl. split; [reflexivity|].
  rewrite Hnone. simpl.
  rewrite DictFacts.get_update_absent; [reflexivity|].
  rewrite !get_set_opt_other by discriminate. reflexivity.
Qed.

End WithRuntime.

Lemma unparsable_ip_becomes_None_witness :
  Validators.ipaddr (rt := Example.runtime) "bogus" = None /\
  do_add_request (rt := Example.runtime) Config.defaults
    (Args.Add [None] (Some 3) None None) (World [] []) =
  (World [] [],
   Ret (Element "request" [("key", JNull)] None
          [Element "add" [("ip", JStr "None"); ("type", JStr "3")] None []])).
Proof.
  destruct (unparsable_ip_becomes_None (rt := Example.runtime) ["bogus"]
              Config.defaults (Some 3) None None (World [] []))
    as (_ & req & Hreq & _ & Hnone).
  destruct (Hnone 0%nat "bogus"
              (ValueError "does not appear to be an IPv4 or IPv6 network")
              eq_refl eq_refl) as (Hip & _).
  split; [exact Hip|reflexivity].
Defined.

End RequestFacts.

(** ** The response parser *)

Module ResponseFacts.
Import Response.

Lemma get_group_step t ret el :
  Dict.get t (group_step ret el) =
  if String.eqb (tag el) t then extended (Dict.get t ret) [attrib el]
  else Dict.get t ret.
Proof.
  unfold group_step, Dict.mem.
  destruct (Dict.get (tag el) ret) as [l|] eqn:Hget; simpl.
  - rewrite Hget, DictFacts.get_set, String.eqb_sym.
    destruct (String.eqb_spec (tag el) t) as [<-|_]; [|reflexivity].
    rewrite Hget. reflexivity.
  - rewrite DictFacts.get_set_same, !DictFacts.get_set, String.eqb_sym.
    destruct (String.eqb_spec (tag el) t) as [<-|_]; [|reflexivity].
    rewrite Hget. reflexivity.
Qed.

Lemma mem_group_step t ret el :
  Dict.mem t (group_step ret el) = Dict.mem t ret || String.eqb t (tag el).
Proof.
  unfold Dict.mem at 1 2. rewrite get_group_step, String.eqb_sym.
  destruct (String.eqb t (tag el)), (Dict.get t ret); reflexivity.
Qed.

Lemma keys_group_step ret el :
  Dict.keys (group_step ret el) =
  if Dict.mem (tag el) ret then Dict.keys ret
  else (Dict.keys ret ++ [tag el])%list.
Proof.
  unfold group_step.
  destruct (Dict.mem (tag el) ret) eqn:Hmem; simpl.
  - unfold Dict.mem in Hmem.
    destruct (Dict.get (tag el) ret) eqn:Hget; [|discriminate].
    apply DictFacts.keys_set_present. unfold Dict.mem. rewrite Hget. reflexivity.
  - rewrite DictFacts.get_set_same.
    rewrite DictFacts.keys_set_present.
    + apply DictFacts.keys_set_absent. assumption.
    + unfold Dict.mem. rewrite DictFacts.get_set_same. reflexivity.
Qed.

Lemma get_fold_group_step t els :
  forall ret,
    Dict.get t (fold_left group_step els ret) =
    extended (Dict.get t ret) (map attrib (with_tag t els)).
Proof.
  induction els as [|el els IH]; intros ret; simpl; [reflexivity|].
  rewrite IH, get_group_step.
  destruct (String.eqb (tag el) t); [|reflexivity].
  simpl. destruct (map attrib (with_tag t els)) as [|a l]; [reflexivity|].
  simpl. rewrite <- app_assoc. reflexivity.
Qed.

Lemma filter_filter_and {A : Type} (f g : A -> bool) (l : list A) :
  filter f (filter g l) = filter (fun x => f x && g x) l.
Proof.
  induction l as [|x l IH]; simpl; [reflexivity|].
  destruct (g x); simpl.
  - rewrite andb_true_r. destruct (f x); rewrite IH; reflexivity.
  - rewrite andb_false_r. assumption.
Qed.

Lemma keys_fold_group_step els :
  forall ret,
    Dict.keys (fold_left group_step els ret) =
    (Dict.keys ret ++
     filter (fun t => negb (Dict.mem t ret)) (first_seen (map tag els)))%list.
Proof.
  induction els as [|el els IH]; intros ret; simpl.
  - rewrite app_nil_r. reflexivity.
  - rewrite IH, keys_group_step, filter_filter_and.
    rewrite (filter_ext _
               (fun t => negb (Dict.mem t ret) && negb (String.eqb t (tag el))))
      by (intros t; rewrite mem_group_step; apply negb_orb).
    destruct (Dict.mem (tag el) ret); simpl; [reflexivity|].
    rewrite <- app_assoc. reflexivity.
Qed.

(** The grouping: each tag maps to the attributes of the children with
    that tag in document order, and the tags are in first-seen order. *)
Lemma group_children_spec xmlobj :
  (forall t,
     Dict.get t (group_children xmlobj) =
     match with_tag t (children xmlobj) with
     | [] => None
     | els => Some (map attrib els)
     end) /\
  Dict.keys (group_children xmlobj) = first_seen (map tag (children xmlobj)).
Proof.
  unfold group_children. split.
  - intros t. rewrite get_fold_group_step. simpl.
    destruct (with_tag t (children xmlobj)); reflexivity.
  - rewrite keys_fold_group_step. simpl.
    induction (first_seen (map tag (children xmlobj))) as [|t l IH];
      simpl; [reflexivity|]. rewrite IH. reflexivity.
Qed.

Section WithRuntime.
Context {rt : Runtime}.

(** Runs [send_rpcrequest] up to the end of its [try] block, given what
    the serializer and the server answer. *)
Ltac run_exchange Hxml Hpost :=
  unfold send_rpcrequest, get_rawxml, post, io_bind;
  rewrite Hxml; simpl; rewrite Hpost; simpl.

(** C1.  When the answer is a document with root [response] and
    [type="success"], [send_rpcrequest] returns the grouping of the
    root's children: each tag that occurs maps to the attribute
    dictionaries of the children with that tag, in document order, no
    other tag is a key, and the keys are in first-seen order.  Nothing is
    printed unless [printxmlres] asks for the body. *)
Theorem success_groups_children (req : element json) (printxmlres : bool)
    (w : world) (body xmlres : string) (xmlobj : element string) :
  xml_write req = inl body ->
  https_post (List.length (posts w)) body = Replies xmlres xmlobj ->
  tag xmlobj = "response" ->
  Dict.get "type" (attrib xmlobj) = Some "success" ->
  let ret := group_children xmlobj in
  send_rpcrequest req printxmlres w =
    (World (stdout w ++ if printxmlres then [xmlres] else [])
           (posts w ++ [body]), Ret ret) /\
  (forall t,
     Dict.get t ret =
     match with_tag t (children xmlobj) with
     | [] => None
     | els => Some (map attrib els)
     end) /\
  Dict.keys ret = first_seen (map tag (children xmlobj)).
Proof.
  intros Hxml Hpost Htag Htype ret. split; [|apply group_children_spec].
  run_exchange Hxml Hpost. rewrite Htag, Htype. simpl.
  destruct printxmlres; simpl; [reflexivity|].
  rewrite app_nil_r. reflexivity.
Qed.

(** C2.  When the answer is a document with root [response] and
    [type="error"] whose children [code], [message] and [data] have a
    text, [send_rpcrequest] prints the five lines of the error report,
    the three fields labelled, and raises [SystemExit(-1)]: the status is
    not zero and no channels are returned. *)
Theorem error_response_is_fatal (req : element json) (printxmlres : bool)
    (w : world) (body xmlres : string) (xmlobj c m d : element string)
    (code message data : string) :
  xml_write req = inl body ->
  https_post (List.length (posts w)) body = Replies xmlres xmlobj ->
  tag xmlobj = "response" ->
  Dict.get "type" (attrib xmlobj) = Some "error" ->
  find_child "code" (children xmlobj) = Some c -> text c = Some code ->
  find_child "message" (children xmlobj) = Some m -> text m = Some message ->
  find_child "data" (children xmlobj) = Some d -> text d = Some data ->
  send_rpcrequest req printxmlres w =
    (World (stdout w ++ ["Error received from RPC server:"; "";
                         "Code:    " ++ code; "Message: " ++ message;
                         "Data:    " ++ data])
           (posts w ++ [body]), Raise (SystemExit (-1))) /\
  exit_status (snd (send_rpcrequest req printxmlres w)) <> 0 /\
  ~ returned (snd (send_rpcrequest req printxmlres w)).
Proof.
  intros Hxml Hpost Htag Htype Hc Hct Hm Hmt Hd Hdt.
  assert (Hrun : send_rpcrequest req printxmlres w =
    (World (stdout w ++ ["Error received from RPC server:"; "";
                         "Code:    " ++ code; "Message: " ++ message;
                         "Data:    " ++ data])
           (posts w ++ [body]), Raise (SystemExit (-1)))).
  { run_exchange Hxml Hpost. rewrite Htag, Htype. simpl.
    unfold find_text. rewrite Hc, Hm, Hd. simpl. rewrite Hct, Hmt, Hdt. simpl.
    rewrite <- !app_assoc. reflexivity. }
  rewrite Hrun. simpl. repeat split.
  - discriminate.
  - intros [a Ha]. discriminate.
Qed.

(** C4.  When the exchange fails, whatever the kind of failure,
    [send_rpcrequest] has POSTed once, prints the diagnostic with the
    text of the exception, and goes on to read [xmlobj], which was never
    bound: the [UnboundLocalError] escapes every caller, so the
    interpreter exits with status 1 and no channels are returned. *)
Theorem transport_failure_is_fatal (req : element json) (printxmlres : bool)
    (w : world) (body : string) (kind : failure) (msg : string) :
  xml_write req = inl body ->
  https_post (List.length (posts w)) body = Fails kind msg ->
  send_rpcrequest req printxmlres w =
    (World (stdout w ++ ["Error retrieving RPC response: " ++ msg])
           (posts w ++ [body]), Raise (UnboundLocalError "xmlobj")) /\
  exit_status (snd (send_rpcrequest req printxmlres w)) <> 0 /\
  ~ returned (snd (send_rpcrequest req printxmlres w)).
Proof.
  intros Hxml Hpost.
  assert (Hrun : send_rpcrequest req printxmlres w =
    (World (stdout w ++ ["Error retrieving RPC response: " ++ msg])
           (posts w ++ [body]), Raise (UnboundLocalError "xmlobj"))).
  { run_exchange Hxml Hpost. reflexivity. }
  rewrite Hrun. simpl. repeat split.
  - discriminate.
  - intros [a Ha]. discriminate.
Qed.

End WithRuntime.
End ResponseFacts.

Module ResponseExamples.
Import Response Fixtures.

(** Two [result] children and a [warning] between them. *)
Lemma success_groups_children_witness :
  send_rpcrequest (rt := Example.answering (Replies "<response />" success_doc))
    request false (World [] []) =
  (World [] ["<request />"],
   Ret [("result", [r1; r2]); ("warning", [w1])]).
Proof.
  exact (proj1 (ResponseFacts.success_groups_children
                  (rt := Example.answering (Replies "<response />" success_doc))
                  request false (World [] []) "<request />" "<response />"
                  success_doc eq_refl eq_refl eq_refl eq_refl)).
Defined.

Lemma error_response_is_fatal_witness :
  send_rpcrequest (rt := Example.answering (Replies "<response />" error_doc))
    request false (World [] []) =
  (World ["Error received from RPC server:"; ""; "Code:    100";
          "Message: Bad key"; "Data:    detail"] ["<request />"],
   Raise (SystemExit (-1))).
Proof.
  exact (proj1 (ResponseFacts.error_response_is_fatal
                  (rt := Example.answering (Replies "<response />" error_doc))
                  request false (World [] []) "<request />" "<response />"
                  error_doc
                  (Element "code" [] (Some "100") [])
                  (Element "message" [] (Some "Bad key") [])
                  (Element "data" [] (Some "detail") [])
                  "100" "Bad key" "detail"
                  eq_refl eq_refl eq_refl eq_refl
                  eq_refl eq_refl eq_refl eq_refl eq_refl eq_refl)).
Defined.

Lemma transport_failure_is_fatal_witness :
  send_rpcrequest (rt := Example.runtime) request false (World [] []) =
  (World ["Error retrieving RPC response: timed out"] ["<request />"],
   Raise (UnboundLocalError "xmlobj")).
Proof.
  exact (proj1 (ResponseFacts.transport_failure_is_fatal
                  (rt := Example.runtime) request false (World [] [])
                  "<request />" Timeout "timed out" eq_refl eq_refl)).
Defined.

End ResponseExamples.

(** ** The configuration loader *)

Module ConfigFacts.
Import Config.

Section WithRuntime.
Context {rt : Runtime}.

(** Where the loader does what it is meant to.  With nothing at the
    path, with a file that cannot be read, and with a file that
    [json.load] rejects, [load_config] returns and leaves the defaults;
    with a file that holds a JSON object, the value of each of [rpckey],
    [staging] and [debug] that the object has replaces the default, and
    nothing else of the object is looked at. *)
Theorem load_config_best_effort (fs : string -> fsentry) (conffile : string) :
  (fs conffile = NoFile -> load_config fs conffile defaults = Ret defaults) /\
  (fs conffile = Unreadable -> load_config fs conffile defaults = Ret defaults) /\
  (forall content,
      fs conffile = File content -> json_loads content = None ->
      load_config fs conffile defaults = Ret defaults) /\
  (forall content d,
      fs conffile = File content -> json_loads content = Some (JObj d) ->
      load_config fs conffile defaults =
      Ret (Make (or_default (Dict.get "rpckey" d) JNull)
                (or_default (Dict.get "staging" d) (JBool false))
                (or_default (Dict.get "debug" d) (JBool false)))).
Proof.
  unfold load_config. repeat split.
  - intros ->. reflexivity.
  - intros ->. reflexivity.
  - intros content -> ->. reflexivity.
  - intros content d -> ->. simpl. unfold Dict.mem.
    destruct (Dict.get "rpckey" d), (Dict.get "staging" d),
      (Dict.get "debug" d); reflexivity.
Qed.

End WithRuntime.

(** Documents that are not objects and hold none of the three keys load
    as the defaults too: [null], which the [None] guard takes, the empty
    list, and a text that contains none of the keys. *)
Lemma load_config_keyless_documents (rt : Runtime)
    (fs : string -> fsentry) (conffile content : string) :
  fs conffile = File content ->
  json_loads content = Some JNull \/
  json_loads content = Some (JList []) \/
  json_loads content = Some (JStr "abc") ->
  load_config fs conffile defaults = Ret defaults.
Proof.
  intros Hfs Hjson. unfold load_config. rewrite Hfs.
  destruct Hjson as [->|[->| ->]]; reflexivity.
Qed.

(** C9.  A file that holds the JSON number 5 parses, and [load_config]
    does not fall back to the defaults nor return any configuration:
    ['rpckey' in 5] raises [TypeError], outside the [try] whose bare
    [except] was to make the load silent. *)
Lemma load_config_number_raises :
  json_loads (Runtime := Example.reading (Some (JInt 5))) "5" = Some (JInt 5) /\
  load_config (rt := Example.reading (Some (JInt 5)))
    (fun _ => File "5") ".dronebl" defaults =
    Raise (TypeError "argument is not iterable") /\
  ~ returned (load_config (rt := Example.reading (Some (JInt 5)))
                (fun _ => File "5") ".dronebl" defaults).
Proof.
  repeat split. intros [cfg Hcfg]. discriminate.
Qed.

Lemma load_config_best_effort_witness :
  load_config (rt := Example.runtime) (fun _ => NoFile) ".dronebl" defaults
    = Ret defaults /\
  load_config (rt := Example.runtime) (fun _ => Unreadable) ".dronebl" defaults
    = Ret defaults /\
  load_config (rt := Example.runtime) (fun _ => File "{") ".dronebl" defaults
    = Ret defaults /\
  load_config
    (rt := Example.reading
             (Some (JObj [("staging", JBool true); ("colour", JStr "red")])))
    (fun _ => File "{...}") ".dronebl" defaults
    = Ret (Make JNull (JBool true) (JBool false)).
Proof.
  split; [|split; [|split]].
  - exact (proj1 (load_config_best_effort (rt := Example.runtime)
                    (fun _ => NoFile) ".dronebl") eq_refl).
  - exact (proj1 (proj2 (load_config_best_effort (rt := Example.runtime)
                    (fun _ => Unreadable) ".dronebl")) eq_refl).
  - exact (proj1 (proj2 (proj2 (load_config_best_effort (rt := Example.runtime)
                    (fun _ => File "{") ".dronebl"))) "{" eq_refl eq_refl).
  - exact (proj2 (proj2 (proj2 (load_config_best_effort
             (rt := Example.reading
                (Some (JObj [("staging", JBool true); ("colour", JStr "red")])))
             (fun _ => File "{...}") ".dronebl")))
             "{...}" [("staging", JBool true); ("colour", JStr "red")]
             eq_refl eq_refl).
Defined.

End ConfigFacts.

(** ** The query table *)

Module TableFacts.
Import Table.

(** A row that has every column of [cols] gets its line. *)
Lemma row_line_complete (r : Dict.t string) :
  forall (cols : columns) (line : string),
    Forall (fun k => Dict.mem k r = true) (Dict.keys cols) ->
    returned (row_line cols r line).
Proof.
  induction cols as [|[k [label width]] cols IH]; intros line Hall; simpl.
  - exists line. reflexivity.
  - inversion Hall as [|k' ks Hk Hks]; subst.
    unfold Dict.mem in Hk. destruct (Dict.get k r); [|discriminate].
    apply IH. assumption.
Qed.

(** A row that lacks a column of [cols] gets no line: the lookup of the
    first column it lacks raises. *)
Lemma row_line_missing (r : Dict.t string) :
  forall (cols : columns) (line : string),
    Exists (fun k => Dict.mem k r = false) (Dict.keys cols) ->
    exists k, Dict.mem k r = false /\ In k (Dict.keys cols) /\
              row_line cols r line = Raise (KeyError k).
Proof.
  induction cols as [|[k [label width]] cols IH]; intros line Hex; simpl in *.
  - inversion Hex.
  - destruct (Dict.get k r) as [v|] eqn:Hget.
    + inversion Hex as [k' ks Hk|k' ks Hks]; subst.
      * unfold Dict.mem in Hk. rewrite Hget in Hk. discriminate.
      * match goal with
        | |- exists _, _ /\ _ /\ row_line _ _ ?l = _ =>
            destruct (IH l Hks) as (k1 & Hmem & Hin & Hrun)
        end.
        exists k1. repeat split; [assumption|right; assumption|exact Hrun].
    + exists k. unfold Dict.mem. rewrite Hget. repeat split. left. reflexivity.
Qed.

(** The width loop passes over a column the row lacks. *)
Lemma widen_skips_missing (r : Dict.t string) :
  (forall k, Dict.get k r = None) -> forall cols, widen cols r = cols.
Proof.
  intros Hnone cols. unfold widen.
  generalize (Dict.keys cols). intros ks. revert cols.
  induction ks as [|k ks IH]; intros cols; simpl; [reflexivity|].
  rewrite Hnone. apply IH.
Qed.

(** C5.  A [result] row with an [id] and an [ip] and no other attribute:
    the width loop passes over the columns the row lacks, the header and
    the rule are printed, and the line of the row raises
    [KeyError('timestamp')]; the table is not finished. *)
Theorem row_missing_key_raises (rt : Runtime) :
  do_query_table [("result", [[("id", "1"); ("ip", "192.0.2.1")]])]
    (World [] []) =
  (World ["Time  ID  IP         Type  Listed  Comment ";
          "===== === ========== ===== ======= ========"] [],
   Raise (KeyError "timestamp")).
Proof.
  unfold do_query_table. simpl. unfold io_bind. simpl.
  reflexivity.
Qed.

End TableFacts.


(** ** More on the validators and the argument layer *)

Module ValidatorMore.
Import Validators.

Section WithRuntime.
Context {rt : Runtime}.

Lemma bounded_Ret (o : outcome Z) (hi : Z) (m1 m2 : string) (p : Z) :
  o_bind o (fun v => if v <? 1 then Raise (ValueError m1)
                     else if v >? hi then Raise (ValueError m2)
                     else Ret v) = Ret p
  <-> o = Ret p /\ 1 <= p <= hi.
Proof.
  destruct o as [v|e]; simpl.
  - destruct (Z.ltb_spec v 1).
    { split; [intros H0; discriminate H0|intros [[= ->] ?]; lia]. }
    destruct (Z.gtb_spec v hi).
    { split; [intros H1; discriminate H1|intros [[= ->] ?]; lia]. }
    split.
    + intros [= ->]. split; [reflexivity|lia].
    + intros [[= ->] _]. reflexivity.
  - split; [intros H; discriminate H|intros [H _]; discriminate H].
Qed.

(** The range validators return exactly the integers of their range:
    ports 1 to 65535, listing types and query limits 1 to 255, positive
    integers from 1 up. *)
Theorem range_validators_accept_exactly (val : string) (p : Z) :
  (portnumber val = Ret p <-> int_of_str val = Ret p /\ 1 <= p <= 65535) /\
  (listingtype val = Ret p <-> int_of_str val = Ret p /\ 1 <= p <= 255) /\
  (querylimit val = Ret p <-> int_of_str val = Ret p /\ 1 <= p <= 255) /\
  (positiveint val = Ret p <-> int_of_str val = Ret p /\ 1 <= p).
Proof.
  split; [apply bounded_Ret|].
  split; [apply bounded_Ret|].
  split; [apply bounded_Ret|].
  unfold positiveint. destruct (int_of_str val) as [v|e]; simpl.
  - destruct (Z.ltb_spec v 1).
    + split; [intros H0; discriminate H0|intros [[= ->] ?]; lia].
    + split.
      * intros [= ->]. split; [reflexivity|lia].
      * intros [[= ->] _]. reflexivity.
  - split; [intros H; discriminate H|intros [H _]; discriminate H].
Qed.

(** Through [argparse], a string that [int] rejects and an integer
    outside the range of the validator both end the run with the usage
    error, status 2. *)
Theorem out_of_range_is_usage_error (val : string) :
  (forall m, int_of_str val = Raise (ValueError m) ->
     Args.get_value portnumber val = Raise (SystemExit 2) /\
     Args.get_value listingtype val = Raise (SystemExit 2) /\
     Args.get_value querylimit val = Raise (SystemExit 2) /\
     Args.get_value positiveint val = Raise (SystemExit 2)) /\
  (forall v, int_of_str val = Ret v ->
     (~ 1 <= v <= 65535 ->
        Args.get_value portnumber val = Raise (SystemExit 2)) /\
     (~ 1 <= v <= 255 ->
        Args.get_value listingtype val = Raise (SystemExit 2) /\
        Args.get_value querylimit val = Raise (SystemExit 2)) /\
     (~ 1 <= v ->
        Args.get_value positiveint val = Raise (SystemExit 2))).
Proof.
  unfold Args.get_value, portnumber, listingtype, querylimit, positiveint.
  split.
  - intros m ->. simpl. repeat split.
  - intros v ->. simpl.
    repeat split;
      repeat match goal with
             | |- context [?a <? ?b] => destruct (Z.ltb_spec a b)
             | |- context [?a >? ?b] => destruct (Z.gtb_spec a b)
             end; try reflexivity; lia.
Qed.

(** [idorip] either returns or raises [ValueError]. *)
Lemma get_value_idorip (val : string) :
  (exists i, idorip val = Ret i /\ Args.get_value idorip val = Ret i) \/
  (checkint val = None /\ ipaddr val = None /\
   Args.get_value idorip val = Raise (SystemExit 2)).
Proof.
  unfold Args.get_value, idorip.
  destruct (checkint val) as [n|]; [left; eexists; split; reflexivity|].
  destruct (ipaddr val) as [o|]; [left; eexists; split; reflexivity|].
  right. repeat split.
Qed.

(** The positional of [query]: when every string is an integer or an
    address the identifiers are stored in order; as soon as one string is
    neither, the run ends with the usage error, status 2. *)
Theorem query_positional_all_or_nothing (vals : list string) :
  (Forall (fun val => exists i, idorip val = Ret i) vals ->
   exists ids,
     Args.query_idorip_values vals = Ret ids /\
     Forall2 (fun val i => idorip val = Ret i) vals ids) /\
  (Exists (fun val => checkint val = None /\ ipaddr val = None) vals ->
   Args.query_idorip_values vals = Raise (SystemExit 2)).
Proof.
  unfold Args.query_idorip_values. split.
  - induction 1 as [|val vals [i Hi] _ IH]; simpl.
    + exists []. split; [reflexivity|constructor].
    + destruct IH as (ids & Hids & Hall).
      destruct (get_value_idorip val) as [(i' & Hi' & Hget)|(_ & _ & Hget)].
      * rewrite Hget. simpl. rewrite Hids. simpl.
        exists (i' :: ids). split; [reflexivity|constructor; assumption].
      * exfalso. unfold Args.get_value in Hget. rewrite Hi in Hget. discriminate.
  - induction vals as [|val vals IH]; intros Hex; [inversion Hex|]. simpl.
    destruct (get_value_idorip val) as [(i & _ & Hget)|(_ & _ & Hget)].
    + rewrite Hget. simpl.
      inversion Hex as [? ? [Hint Hip]|? ? Hrest]; subst.
      * exfalso. unfold Args.get_value, idorip in Hget.
        rewrite Hint, Hip in Hget. discriminate.
      * rewrite (IH Hrest). reflexivity.
    + rewrite Hget. reflexivity.
Qed.

(** An address given with the full prefix length of its family, or with
    none, comes back as that very address: no bit of it is cleared. *)
Theorem ipaddr_full_prefix_unchanged (val : string) (v : version) (packed : Z) :
  ip_text val = Some (v, packed, max_prefixlen v) ->
  0 <= packed <= ALL_ONES v ->
  ipaddr val = Some (IPAddr (Address v packed)).
Proof.
  intros Htext Hrange.
  assert (Hmask : Z.land packed (netmask_of v (max_prefixlen v)) = packed).
  { unfold netmask_of.
    assert (Hz : Z.shiftr (ALL_ONES v) (max_prefixlen v) = 0).
    { rewrite Z.shiftr_div_pow2 by (destruct v; simpl; lia).
      apply Z.div_small. unfold ALL_ONES in *. destruct v; simpl in *; lia. }
    rewrite Hz, Z.lxor_0_r, ValidatorFacts.ALL_ONES_ones.
    rewrite Z.land_ones by (destruct v; simpl; lia).
    apply Z.mod_small. unfold ALL_ONES in Hrange. lia. }
  unfold ipaddr, ip_network. rewrite Htext.
  destruct (Z.leb_spec 0 packed); [|lia].
  destruct (Z.leb_spec packed (ALL_ONES v)); [|lia].
  destruct (Z.leb_spec 0 (max_prefixlen v)); [|destruct v; simpl in *; lia].
  rewrite Z.leb_refl. simpl. rewrite Hmask, Z.eqb_refl. simpl.
  rewrite Z.eqb_refl. reflexivity.
Qed.

End WithRuntime.

Lemma out_of_range_is_usage_error_witness :
  Args.get_value (querylimit (rt := Example.runtime)) "abc" = Raise (SystemExit 2) /\
  Args.get_value (portnumber (rt := Example.runtime)) "70000" = Raise (SystemExit 2) /\
  Args.get_value (positiveint (rt := Example.runtime)) "0" = Raise (SystemExit 2).
Proof.
  destruct (out_of_range_is_usage_error (rt := Example.runtime) "abc") as [Ha _].
  destruct (out_of_range_is_usage_error (rt := Example.runtime) "70000") as [_ Hb].
  destruct (out_of_range_is_usage_error (rt := Example.runtime) "0") as [_ Hc].
  split; [|split].
  - exact (proj1 (proj2 (proj2 (Ha _ eq_refl)))).
  - apply (proj1 (Hb 70000 eq_refl)). lia.
  - apply (proj2 (proj2 (Hc 0 eq_refl))). lia.
Defined.

Lemma query_positional_all_or_nothing_witness :
  Args.query_idorip_values (rt := Example.runtime) ["42"; "bogus"] =
    Raise (SystemExit 2) /\
  exists ids,
    Args.query_idorip_values (rt := Example.runtime) ["42"; "192.0.2.1"] = Ret ids.
Proof.
  split.
  - apply (proj2 (query_positional_all_or_nothing (rt := Example.runtime)
                    ["42"; "bogus"])).
    right. left. split; reflexivity.
  - destruct (proj1 (query_positional_all_or_nothing (rt := Example.runtime)
                       ["42"; "192.0.2.1"])) as (ids & Hids & _).
    + repeat constructor; eexists; reflexivity.
    + exists ids. exact Hids.
Defined.

Lemma ipaddr_full_prefix_unchanged_witness :
  ipaddr (rt := Example.runtime) "192.0.2.77/32" =
    Some (IPAddr (Address V4 3221226061)).
Proof.
  apply (ipaddr_full_prefix_unchanged (rt := Example.runtime) "192.0.2.77/32").
  - reflexivity.
  - unfold ALL_ONES. simpl. lia.
Defined.

End ValidatorMore.

(** ** More on the exchange and the response parser *)

Module ResponseMore.
Import Response.

Lemma NoDup_first_seen (tags : list string) : NoDup (first_seen tags).
Proof.
  induction tags as [|t tags IH]; simpl; constructor.
  - intros Hin. apply filter_In in Hin. destruct Hin as [_ Hne].
    rewrite String.eqb_refl in Hne. discriminate.
  - apply NoDup_filter. assumption.
Qed.

(** The number of attribute dictionaries a grouping holds. *)
Lemma total_set_present {A : Type} k (v l : list A) (d : Dict.t (list A)) :
  Dict.get k d = Some l ->
  (list_sum (map (fun kv => List.length (snd kv)) (Dict.set k v d))
   + List.length l
   = list_sum (map (fun kv => List.length (snd kv)) d) + List.length v)%nat.
Proof.
  induction d as [|[k0 v0] d IH]; simpl; [discriminate|].
  destruct (String.eqb_spec k k0) as [->|Hne]; simpl.
  - intros [= ->]. lia.
  - intros Hget. specialize (IH Hget). lia.
Qed.

Lemma total_set_absent {A : Type} k (v : list A) (d : Dict.t (list A)) :
  Dict.get k d = None ->
  list_sum (map (fun kv => List.length (snd kv)) (Dict.set k v d))
  = (list_sum (map (fun kv => List.length (snd kv)) d) + List.length v)%nat.
Proof.
  induction d as [|[k0 v0] d IH]; simpl; [lia|].
  destruct (String.eqb_spec k k0) as [->|Hne]; simpl.
  - discriminate.
  - intros Hget. rewrite (IH Hget). lia.
Qed.

Lemma total_group_step ret el :
  list_sum (map (fun kv => List.length (snd kv)) (group_step ret el))
  = S (list_sum (map (fun kv => List.length (snd kv)) ret)).
Proof.
  unfold group_step, Dict.mem.
  destruct (Dict.get (tag el) ret) as [l|] eqn:Hget; simpl.
  - rewrite Hget.
    pose proof (total_set_present (tag el) (l ++ [attrib el]) l ret Hget) as H.
    rewrite length_app in H. simpl in H. lia.
  - rewrite DictFacts.get_set_same.
    pose proof (total_set_present (tag el) ([] ++ [attrib el]) []
                  (Dict.set (tag el) [] ret)
                  (DictFacts.get_set_same _ _ _)) as H.
    rewrite (total_set_absent _ _ _ Hget) in H. simpl in H. simpl. lia.
Qed.

Lemma total_fold_group_step els :
  forall ret,
    list_sum (map (fun kv => List.length (snd kv)) (fold_left group_step els ret))
    = (list_sum (map (fun kv => List.length (snd kv)) ret) + List.length els)%nat.
Proof.
  induction els as [|el els IH]; intros ret; simpl; [lia|].
  rewrite IH, total_group_step. lia.
Qed.

(** The grouping is a partition of the children: the tags that are keys
    are distinct, no channel is empty, and the channels together hold as
    many attribute dictionaries as the root has children. *)
Theorem group_children_partition (xmlobj : element string) :
  NoDup (Dict.keys (group_children xmlobj)) /\
  (forall t l, Dict.get t (group_children xmlobj) = Some l -> l <> []) /\
  list_sum (map (fun kv => List.length (snd kv)) (group_children xmlobj))
  = List.length (children xmlobj).
Proof.
  destruct (ResponseFacts.group_children_spec xmlobj) as [Hget Hkeys].
  split; [rewrite Hkeys; apply NoDup_first_seen|]. split.
  - intros t l. rewrite Hget.
    destruct (with_tag t (children xmlobj)); [discriminate|].
    intros [= <-]. discriminate.
  - unfold group_children. rewrite total_fold_group_step. reflexivity.
Qed.

Section WithRuntime.
Context {rt : Runtime}.

(** A reply whose envelope is not the expected one ends the run with one
    line and [SystemExit(-1)]: a root that is not [response], a root
    without [type], a [type] that is neither [success] nor [error], which
    is echoed. *)
Theorem malformed_envelope_is_fatal (req : element json) (printxmlres : bool)
    (w : world) (body xmlres : string) (xmlobj : element string) :
  xml_write req = inl body ->
  https_post (List.length (posts w)) body = Replies xmlres xmlobj ->
  (tag xmlobj <> "response" ->
   send_rpcrequest req printxmlres w =
     (World (stdout w ++ ["Error: invalid XML response received..."])
            (posts w ++ [body]), Raise (SystemExit (-1)))) /\
  (tag xmlobj = "response" -> Dict.get "type" (attrib xmlobj) = None ->
   send_rpcrequest req printxmlres w =
     (World (stdout w ++ ["Error: missing response type attribute..."])
            (posts w ++ [body]), Raise (SystemExit (-1)))) /\
  (forall type,
     tag xmlobj = "response" -> Dict.get "type" (attrib xmlobj) = Some type ->
     type <> "success" -> type <> "error" ->
     send_rpcrequest req printxmlres w =
       (World (stdout w ++ ["Error: Unknown response type received: " ++ type])
              (posts w ++ [body]), Raise (SystemExit (-1)))).
Proof.
  intros Hxml Hpost. repeat split.
  - intros Htag.
    unfold send_rpcrequest, get_rawxml, post, io_bind.
    rewrite Hxml. simpl. rewrite Hpost. simpl.
    destruct (String.eqb_spec (tag xmlobj) "response"); [contradiction|].
    reflexivity.
  - intros Htag Htype.
    unfold send_rpcrequest, get_rawxml, post, io_bind.
    rewrite Hxml. simpl. rewrite Hpost. simpl. rewrite Htag, Htype. reflexivity.
  - intros type Htag Htype Hs He.
    unfold send_rpcrequest, get_rawxml, post, io_bind.
    rewrite Hxml. simpl. rewrite Hpost. simpl. rewrite Htag, Htype. simpl.
    destruct (String.eqb_spec type "success"); [contradiction|].
    destruct (String.eqb_spec type "error"); [contradiction|].
    reflexivity.
Qed.

(** An error reply that lacks one of the children [code], [message] and
    [data] prints nothing of the report: reading [.text] of the missing
    child raises [AttributeError], which nothing catches. *)
Theorem error_reply_without_field (req : element json) (printxmlres : bool)
    (w : world) (body xmlres : string) (xmlobj : element string) :
  xml_write req = inl body ->
  https_post (List.length (posts w)) body = Replies xmlres xmlobj ->
  tag xmlobj = "response" ->
  Dict.get "type" (attrib xmlobj) = Some "error" ->
  find_child "code" (children xmlobj) = None \/
  find_child "message" (children xmlobj) = None \/
  find_child "data" (children xmlobj) = None ->
  send_rpcrequest req printxmlres w =
    (World (stdout w) (posts w ++ [body]),
     Raise (AttributeError "'NoneType' object has no attribute 'text'")) /\
  exit_status (snd (send_rpcrequest req printxmlres w)) = 1.
Proof.
  intros Hxml Hpost Htag Htype Hmiss.
  assert (Hrun : send_rpcrequest req printxmlres w =
    (World (stdout w) (posts w ++ [body]),
     Raise (AttributeError "'NoneType' object has no attribute 'text'"))).
  { unfold send_rpcrequest, get_rawxml, post, io_bind.
    rewrite Hxml. simpl. rewrite Hpost. simpl. rewrite Htag, Htype. simpl.
    unfold find_text.
    destruct (find_child "code" (children xmlobj)); [|reflexivity].
    destruct (find_child "message" (children xmlobj)); [|reflexivity].
    destruct (find_child "data" (children xmlobj)); [|reflexivity].
    destruct Hmiss as [H|[H|H]]; discriminate H. }
  rewrite Hrun. split; reflexivity.
Qed.

(** An error reply whose [code] element is empty prints the first two
    lines of the report and stops at the [Code:] line with a [TypeError]:
    the text of an empty element is [None]. *)
Theorem error_reply_with_empty_code (req : element json) (printxmlres : bool)
    (w : world) (body xmlres : string) (xmlobj c m d : element string) :
  xml_write req = inl body ->
  https_post (List.length (posts w)) body = Replies xmlres xmlobj ->
  tag xmlobj = "response" ->
  Dict.get "type" (attrib xmlobj) = Some "error" ->
  find_child "code" (children xmlobj) = Some c -> text c = None ->
  find_child "message" (children xmlobj) = Some m ->
  find_child "data" (children xmlobj) = Some d ->
  send_rpcrequest req printxmlres w =
    (World (stdout w ++ ["Error received from RPC server:"; ""])
           (posts w ++ [body]),
     Raise (TypeError "can only concatenate str (not NoneType) to str")).
Proof.
  intros Hxml Hpost Htag Htype Hc Hct Hm Hd.
  unfold send_rpcrequest, get_rawxml, post, io_bind.
  rewrite Hxml. simpl. rewrite Hpost. simpl. rewrite Htag, Htype. simpl.
  unfold find_text. rewrite Hc, Hm, Hd. simpl. rewrite Hct. simpl.
  rewrite <- app_assoc. reflexivity.
Qed.

(** A request that cannot be written as XML is never sent: the error is
    printed and the run ends with [SystemExit(-1)] before any POST. *)
Theorem unserializable_request_is_not_sent (req : element json)
    (printxmlres : bool) (w : world) (ex : string) :
  xml_write req = inr ex ->
  send_rpcrequest req printxmlres w =
    (World (stdout w ++ ["Error generating request body XML: " ++ ex]) (posts w),
     Raise (SystemExit (-1))).
Proof.
  intros Hxml. unfold send_rpcrequest, get_rawxml, io_bind.
  rewrite Hxml. reflexivity.
Qed.

(** Whatever the request and the server, [send_rpcrequest] only adds to
    what was printed, POSTs at most one body, the serialized request, and
    returns channels only after it has POSTed it. *)
Theorem send_rpcrequest_posts_at_most_once (req : element json)
    (printxmlres : bool) (w : world) :
  (exists out,
     stdout (fst (send_rpcrequest req printxmlres w)) = (stdout w ++ out)%list) /\
  (posts (fst (send_rpcrequest req printxmlres w)) = posts w \/
   exists body, xml_write req = inl body /\
     posts (fst (send_rpcrequest req printxmlres w)) = (posts w ++ [body])%list) /\
  (returned (snd (send_rpcrequest req printxmlres w)) ->
   exists body, xml_write req = inl body /\
     posts (fst (send_rpcrequest req printxmlres w)) = (posts w ++ [body])%list).
Proof.
  unfold send_rpcrequest, get_rawxml, post, io_bind, find_text, concat_text.
  destruct (xml_write req) as [body|ex]; simpl.
  - assert (Hout : forall out : list string,
              exists out', (stdout w ++ out)%list = (stdout w ++ out')%list)
      by (intros out; exists out; reflexivity).
    destruct (https_post (List.length (posts w)) body) as [kind msg|xmlres xmlobj];
      simpl.
    + repeat split; eauto.
    + repeat match goal with
             | |- context [match ?x with _ => _ end] =>
                 match x with
                 | context [match _ with _ => _ end] => fail 1
                 | _ => destruct x eqn:?
                 end; simpl
             end;
        rewrite <- ?app_assoc; simpl;
        (repeat split; eauto; exists []; rewrite app_nil_r; reflexivity).
  - split; [eexists; reflexivity|]. split; [left; reflexivity|].
    intros [a Ha]. discriminate Ha.
Qed.

End WithRuntime.
End ResponseMore.

(** ** The notices and the type table *)

Module PresenterFacts.
Import Presenter Specs.

Lemma length_append (s1 s2 : string) :
  String.length (s1 ++ s2) = (String.length s1 + String.length s2)%nat.
Proof. induction s1 as [|c s1 IH]; simpl; [reflexivity|]. rewrite IH. reflexivity. Qed.

Lemma length_repeat_char (c : ascii) (n : nat) :
  String.length (Table.repeat_str (String c "") n) = n.
Proof. induction n as [|n IH]; simpl; [reflexivity|]. rewrite IH. reflexivity. Qed.

(** A loop that prints one computed line per item prints them all when
    each is computed. *)
Lemma for_each_print {A : Type} (f : A -> outcome string) (xs : list A)
    (lines : list string) :
  Forall2 (fun x line => f x = Ret line) xs lines ->
  forall w,
    for_each xs (fun x => io_bind (lift (f x)) print) w =
    (World (stdout w ++ lines) (posts w), Ret tt).
Proof.
  induction 1 as [|x line xs lines Hx _ IH]; intros w; simpl.
  - rewrite app_nil_r. destruct w; reflexivity.
  - unfold io_bind at 1 2, lift. rewrite Hx. simpl. rewrite IH. simpl.
    rewrite <- app_assoc. reflexivity.
Qed.

(** It stops at the first item whose line raises. *)
Lemma for_each_print_stops {A : Type} (f : A -> outcome string)
    (good : list A) (bad : A) (rest : list A) (lines : list string) (e : exn) :
  Forall2 (fun x line => f x = Ret line) good lines ->
  f bad = Raise e ->
  forall w,
    for_each (good ++ bad :: rest) (fun x => io_bind (lift (f x)) print) w =
    (World (stdout w ++ lines) (posts w), Raise e).
Proof.
  intros Hgood Hbad.
  induction Hgood as [|x line xs lines Hx _ IH]; intros w; simpl.
  - unfold io_bind, lift. rewrite Hbad. rewrite app_nil_r. destruct w; reflexivity.
  - unfold io_bind at 1 2, lift. rewrite Hx. simpl. rewrite IH. simpl.
    rewrite <- app_assoc. reflexivity.
Qed.

Lemma show_channel_notices channel prefix res lines w :
  notices prefix (Dict.get channel res) lines ->
  show_channel channel prefix res w = (World (stdout w ++ lines) (posts w), Ret tt).
Proof.
  unfold notices, show_channel. destruct (Dict.get channel res) as [entries|].
  - intros Hall. apply for_each_print. assumption.
  - intros ->. rewrite app_nil_r. destruct w; reflexivity.
Qed.

Lemma show_channel_stops channel prefix res good bad rest lines w :
  Dict.get channel res = Some (good ++ bad :: rest)%list ->
  Forall2 (fun dbg line => entry_line prefix dbg = Ret line) good lines ->
  Dict.get "data" bad = None ->
  show_channel channel prefix res w =
    (World (stdout w ++ lines) (posts w), Raise (KeyError "data")).
Proof.
  intros Hget Hgood Hbad. unfold show_channel. rewrite Hget.
  apply for_each_print_stops; [assumption|].
  unfold entry_line. rewrite Hbad. reflexivity.
Qed.

(** Each of the three [show_] functions prints the lines of its channel,
    one per entry and in order, when every entry has [data], and nothing
    when the reply has no such channel; [show_debuginfo] prints nothing at
    all unless [debug] is true in the configuration. *)
Theorem notices_one_line_each (config : Config.t) (res : Response.channels)
    (lines : list string) (w : world) :
  (notices "Success: " (Dict.get "success" res) lines ->
   show_success res w = (World (stdout w ++ lines) (posts w), Ret tt)) /\
  (notices "WARNING: " (Dict.get "warning" res) lines ->
   show_warnings res w = (World (stdout w ++ lines) (posts w), Ret tt)) /\
  (truthy (Config.debug config) = true ->
   notices "Debug: " (Dict.get "debug" res) lines ->
   show_debuginfo config res w = (World (stdout w ++ lines) (posts w), Ret tt)) /\
  (truthy (Config.debug config) = false ->
   show_debuginfo config res w = (w, Ret tt)).
Proof.
  unfold show_success, show_warnings, show_debuginfo. repeat split.
  - apply show_channel_notices.
  - apply show_channel_notices.
  - intros ->. apply show_channel_notices.
  - intros ->. reflexivity.
Qed.

(** An entry without [data] stops its function with [KeyError('data')]
    after the lines of the entries before it. *)
Theorem notice_without_data_raises (config : Config.t) (res : Response.channels)
    (good : list (Dict.t string)) (bad : Dict.t string)
    (rest : list (Dict.t string)) (w : world) :
  Dict.get "data" bad = None ->
  (forall lines,
     Dict.get "success" res = Some (good ++ bad :: rest)%list ->
     Forall2 (fun dbg line => entry_line "Success: " dbg = Ret line) good lines ->
     show_success res w =
       (World (stdout w ++ lines) (posts w), Raise (KeyError "data"))) /\
  (forall lines,
     Dict.get "warning" res = Some (good ++ bad :: rest)%list ->
     Forall2 (fun dbg line => entry_line "WARNING: " dbg = Ret line) good lines ->
     show_warnings res w =
       (World (stdout w ++ lines) (posts w), Raise (KeyError "data"))) /\
  (forall lines,
     truthy (Config.debug config) = true ->
     Dict.get "debug" res = Some (good ++ bad :: rest)%list ->
     Forall2 (fun dbg line => entry_line "Debug: " dbg = Ret line) good lines ->
     show_debuginfo config res w =
       (World (stdout w ++ lines) (posts w), Raise (KeyError "data"))).
Proof.
  intros Hbad. unfold show_success, show_warnings, show_debuginfo. repeat split.
  - intros lines Hget Hgood. eapply show_channel_stops; eassumption.
  - intros lines Hget Hgood. eapply show_channel_stops; eassumption.
  - intros lines -> Hget Hgood. eapply show_channel_stops; eassumption.
Qed.

Lemma params_of_flat_map (dbg : Dict.t string) :
  params_of dbg =
  flat_map (fun k => if String.eqb k "data" then []
                     else match Dict.get k dbg with
                          | Some v => [k ++ "=" ++ v]
                          | None => []
                          end) (Dict.keys dbg).
Proof.
  unfold params_of.
  assert (H : forall ks acc,
    fold_left
      (fun params k =>
         if String.eqb k "data" then params
         else match Dict.get k dbg with
              | Some v => (params ++ [(k ++ "=" ++ v)%string])%list
              | None => params
              end) ks acc =
    (acc ++ flat_map (fun k => if String.eqb k "data" then []
                               else match Dict.get k dbg with
                                    | Some v => [(k ++ "=" ++ v)%string]
                                    | None => []
                                    end) ks)%list).
  { induction ks as [|k ks IH]; intros acc; simpl.
    - rewrite app_nil_r. reflexivity.
    - rewrite IH. destruct (String.eqb k "data"); [reflexivity|].
      destruct (Dict.get k dbg); [|reflexivity].
      rewrite <- app_assoc. reflexivity. }
  apply (H (Dict.keys dbg) []).
Qed.

Lemma get_of_member (dbg : Dict.t string) :
  NoDup (Dict.keys dbg) ->
  forall kv, In kv dbg -> Dict.get (fst kv) dbg = Some (snd kv).
Proof.
  induction dbg as [|[k0 v0] dbg IH]; intros Hnd kv Hin; [inversion Hin|].
  inversion Hnd as [|? ? Hnotin Hnd']; subst. simpl.
  destruct Hin as [<-|Hin]; simpl.
  - rewrite String.eqb_refl. reflexivity.
  - destruct (String.eqb_spec (fst kv) k0) as [Heq|_].
    + exfalso. apply Hnotin. rewrite <- Heq. apply in_map. assumption.
    + apply IH; assumption.
Qed.

Lemma params_of_others (dbg : Dict.t string) :
  NoDup (Dict.keys dbg) ->
  params_of dbg = map (fun kv => fst kv ++ "=" ++ snd kv) (others dbg).
Proof.
  intros Hnd. rewrite params_of_flat_map. unfold others, Dict.keys.
  assert (H : forall l : Dict.t string,
    (forall kv, In kv l -> Dict.get (fst kv) dbg = Some (snd kv)) ->
    flat_map (fun k => if String.eqb k "data" then []
                       else match Dict.get k dbg with
                            | Some v => [k ++ "=" ++ v]
                            | None => []
                            end) (map fst l) =
    map (fun kv => fst kv ++ "=" ++ snd kv)
        (filter (fun kv => negb (String.eqb (fst kv) "data")) l)).
  { induction l as [|[k v] l IH]; intros Hget; [reflexivity|].
    cbn [map flat_map filter fst].
    rewrite IH by (intros kv Hin; apply Hget; right; assumption).
    destruct (String.eqb k "data"); cbn [negb]; [reflexivity|].
    pose proof (Hget (k, v) (or_introl eq_refl)) as Hk. cbn [fst snd] in Hk.
    rewrite Hk. reflexivity. }
  apply H. apply get_of_member. assumption.
Qed.

Lemma join_nonempty (sep x : string) (rest : list string) :
  (0 < String.length x)%nat -> (0 < String.length (join sep (x :: rest)))%nat.
Proof.
  intros Hx. simpl. destruct rest; [assumption|].
  rewrite length_append. lia.
Qed.

(** The line of an entry: the prefix, the value of [data], and, when the
    entry has other attributes, their [key=value] texts in order, joined
    by a comma and a space, in parentheses; no parentheses otherwise. *)
Theorem entry_line_format (prefix : string) (dbg : Dict.t string) (msg : string) :
  NoDup (Dict.keys dbg) ->
  Dict.get "data" dbg = Some msg ->
  entry_line prefix dbg =
  Ret (prefix ++ msg ++
       match others dbg with
       | [] => ""
       | kvs =>
           " (" ++ join ", " (map (fun kv => fst kv ++ "=" ++ snd kv) kvs) ++ ")"
       end).
Proof.
  intros Hnd Hdata. unfold entry_line. rewrite Hdata.
  rewrite (params_of_others dbg Hnd).
  destruct (others dbg) as [|[k v] kvs]; [reflexivity|].
  assert (Hlen : (0 < String.length
                    (join ", " (map (fun kv => fst kv ++ "=" ++ snd kv)
                                    ((k, v) :: kvs))))%nat).
  { apply join_nonempty. simpl. rewrite !length_append. simpl. lia. }
  destruct (Nat.ltb_spec 0 (String.length
              (join ", " (map (fun kv => fst kv ++ "=" ++ snd kv) ((k, v) :: kvs)))));
    [reflexivity|lia].
Qed.

Lemma notices_one_line_each_witness :
  show_warnings [("warning", [[("data", "Rate limited"); ("ip", "192.0.2.1")]])]
    (World [] []) =
  (World ["WARNING: Rate limited (ip=192.0.2.1)"] [], Ret tt).
Proof.
  apply (proj1 (proj2 (notices_one_line_each Config.defaults
           [("warning", [[("data", "Rate limited"); ("ip", "192.0.2.1")]])]
           ["WARNING: Rate limited (ip=192.0.2.1)"] (World [] [])))).
  simpl. repeat constructor.
Defined.

Lemma notice_without_data_raises_witness :
  show_success [("success", [[("data", "Removed")]; [("id", "7")]])] (World [] []) =
  (World ["Success: Removed"] [], Raise (KeyError "data")).
Proof.
  apply (proj1 (notice_without_data_raises Config.defaults
           [("success", [[("data", "Removed")]; [("id", "7")]])]
           [[("data", "Removed")]] [("id", "7")] [] (World [] []) eq_refl)
           ["Success: Removed"] eq_refl).
  repeat constructor.
Defined.

Lemma entry_line_format_witness :
  entry_line "Success: " [("data", "Added"); ("ip", "192.0.2.1"); ("id", "7")] =
  Ret "Success: Added (ip=192.0.2.1, id=7)".
Proof.
  apply (entry_line_format "Success: "
           [("data", "Added"); ("ip", "192.0.2.1"); ("id", "7")] "Added").
  - repeat constructor; simpl; intuition discriminate.
  - reflexivity.
Defined.

End PresenterFacts.

(** ** The type table and the commands as a whole *)

Module CommandFacts.
Import Presenter Specs.

Lemma longest_description_max (types : list (Dict.t string)) :
  Forall is_type types ->
  forall n,
    longest_description types n =
    Ret (Nat.max n (list_max (map desc_len types))).
Proof.
  induction 1 as [|type types [_ Hdesc] _ IH]; intros n; simpl.
  - rewrite Nat.max_0_r. reflexivity.
  - unfold desc_len at 1. unfold Dict.mem in Hdesc.
    destruct (Dict.get "description" type) as [d|]; [|discriminate].
    destruct (Nat.ltb_spec n (String.length d)); rewrite IH; f_equal; lia.
Qed.

Lemma type_rows_exist (types : list (Dict.t string)) :
  Forall is_type types ->
  exists rows, Forall2 (fun type row => type_row type = Ret row) types rows.
Proof.
  induction 1 as [|type types [Hcode Hdesc] _ (rows & IH)].
  - exists []. constructor.
  - unfold Dict.mem in Hcode, Hdesc.
    destruct (Dict.get "type" type) as [code|] eqn:Ec; [|discriminate].
    destruct (Dict.get "description" type) as [d|] eqn:Ed; [|discriminate].
    exists ((Table.ljust code 6 ++ d) :: rows). constructor; [|assumption].
    unfold type_row. rewrite Ec, Ed. reflexivity.
Qed.

Lemma length_ljust (s : string) (width : nat) :
  String.length (Table.ljust s width) = Nat.max (String.length s) width.
Proof.
  unfold Table.ljust. rewrite PresenterFacts.length_append.
  rewrite (PresenterFacts.length_repeat_char " "%char). lia.
Qed.

(** The type table, for a [typelist] channel whose rows all have a code
    and a description: the title, a rule of seven [=] more than the
    longest description, one row per type, then the warnings.  A row
    whose code has at most six characters is shorter than the rule. *)
Theorem types_table_layout (res : Response.channels)
    (types : list (Dict.t string)) (w : world) :
  Dict.get "typelist" res = Some types ->
  Forall is_type types ->
  let longest := list_max (map desc_len types) in
  let rule := "===== " ++ Table.repeat_str "=" (longest + 1) in
  exists rows,
    Forall2 (fun type row => type_row type = Ret row) types rows /\
    do_types_table res w =
      show_warnings res
        (World (stdout w ++ "Type  Description" :: rule :: rows) (posts w)) /\
    String.length rule = (longest + 7)%nat /\
    Forall2 (fun type row =>
               forall code, Dict.get "type" type = Some code ->
                            (String.length code <= 6)%nat ->
                            (String.length row < String.length rule)%nat)
            types rows.
Proof.
  intros Hget Htypes longest rule.
  destruct (type_rows_exist types Htypes) as (rows & Hrows).
  assert (Hrule : String.length rule = (longest + 7)%nat).
  { unfold rule. rewrite PresenterFacts.length_append.
    rewrite (PresenterFacts.length_repeat_char "="%char). simpl. lia. }
  exists rows. split; [assumption|]. split; [|split; [assumption|]].
  - unfold do_types_table. rewrite Hget.
    unfold io_bind at 1, lift. rewrite (longest_description_max types Htypes).
    simpl Nat.max. fold longest.
    unfold io_bind at 1 2 3, print at 1 2. simpl.
    rewrite (PresenterFacts.for_each_print type_row types rows Hrows). simpl.
    rewrite <- !app_assoc. simpl.
    unfold ljust_fill. simpl String.length.
    replace (longest + 1 + 6 - 6)%nat with (longest + 1)%nat by lia.
    reflexivity.
  - rewrite Hrule. clear Hrule.
    assert (Hle : forall type, In type types -> (desc_len type <= longest)%nat).
    { intros type Hin. unfold longest.
      pose proof (proj1 (list_max_le (map desc_len types)
                           (list_max (map desc_len types))) (Nat.le_refl _)) as Hall.
      rewrite Forall_forall in Hall. apply Hall. apply in_map. assumption. }
    clear Hget Htypes rule. revert Hle. generalize longest. intros bound Hle.
    induction Hrows as [|type row types rows Hrow _ IH]; constructor.
    + intros code Hcode Hlen. unfold type_row in Hrow. rewrite Hcode in Hrow.
      pose proof (Hle type (or_introl eq_refl)) as Hd. unfold desc_len in Hd.
      destruct (Dict.get "description" type) as [d|]; [|discriminate].
      injection Hrow as <-.
      rewrite PresenterFacts.length_append, length_ljust. lia.
    + apply IH. intros t Hin. apply Hle. right. assumption.
Qed.

Section WithRuntime.
Context {rt : Runtime}.

(** A success reply is turned into its channels after one POST, with
    nothing printed. *)
Lemma send_success (req : element json) (w : world) (body xmlres : string)
    (xmlobj : element string) :
  xml_write req = inl body ->
  https_post (List.length (posts w)) body = Replies xmlres xmlobj ->
  tag xmlobj = "response" ->
  Dict.get "type" (attrib xmlobj) = Some "success" ->
  Response.send_rpcrequest req false w =
    (World (stdout w) (posts w ++ [body]), Ret (Response.group_children xmlobj)).
Proof.
  intros Hxml Hpost Htag Htype.
  unfold Response.send_rpcrequest, Response.get_rawxml, Response.post, io_bind.
  rewrite Hxml. simpl. rewrite Hpost. simpl. rewrite Htag, Htype. reflexivity.
Qed.

(** [types] against a success reply without a [typelist] element prints
    the one line [Error: missing typelist] and returns: the warnings of
    the reply are not shown and the exit status is 0. *)
Theorem types_without_typelist (config : Config.t) (w : world)
    (req : element json) (body xmlres : string) (xmlobj : element string) :
  Request.do_types_request config w = (w, Ret req) ->
  xml_write req = inl body ->
  https_post (List.length (posts w)) body = Replies xmlres xmlobj ->
  tag xmlobj = "response" ->
  Dict.get "type" (attrib xmlobj) = Some "success" ->
  Response.with_tag "typelist" (children xmlobj) = [] ->
  do_types config w =
    (World (stdout w ++ ["Error: missing typelist"]) (posts w ++ [body]), Ret tt) /\
  exit_status (snd (do_types config w)) = 0.
Proof.
  intros Hreq Hxml Hpost Htag Htype Hnone.
  assert (Hrun : do_types config w =
    (World (stdout w ++ ["Error: missing typelist"]) (posts w ++ [body]), Ret tt)).
  { unfold do_types. unfold io_bind at 1. rewrite Hreq.
    unfold io_bind at 1. rewrite (send_success req w body xmlres xmlobj) by assumption.
    unfold do_types_table.
    rewrite (proj1 (ResponseFacts.group_children_spec xmlobj) "typelist"), Hnone.
    reflexivity. }
  rewrite Hrun. split; reflexivity.
Qed.

(** What [do_add], [do_remove] and [do_update] do after the request is
    built. *)
Lemma report_after_send (config : Config.t) (req : element json)
    (delay : string) (w : world) (body xmlres : string)
    (xmlobj : element string) (ls lw ld : list string) :
  xml_write req = inl body ->
  https_post (List.length (posts w)) body = Replies xmlres xmlobj ->
  tag xmlobj = "response" ->
  Dict.get "type" (attrib xmlobj) = Some "success" ->
  notices "Success: " (Dict.get "success" (Response.group_children xmlobj)) ls ->
  notices "WARNING: " (Dict.get "warning" (Response.group_children xmlobj)) lw ->
  (if truthy (Config.debug config)
   then notices "Debug: " (Dict.get "debug" (Response.group_children xmlobj)) ld
   else ld = []) ->
  io_bind (Response.send_rpcrequest req false) (fun res =>
  io_bind (show_success res) (fun _ =>
  io_bind (show_warnings res) (fun _ =>
  io_bind (show_debuginfo config res) (fun _ =>
  print ("Completed in " ++ delay))))) w =
  (World (stdout w ++ ls ++ lw ++ ld ++ ["Completed in " ++ delay])
         (posts w ++ [body]), Ret tt).
Proof.
  intros Hxml Hpost Htag Htype Hs Hw Hd.
  unfold io_bind at 1. rewrite (send_success req w body xmlres xmlobj) by assumption.
  unfold io_bind at 1, show_success.
  rewrite (PresenterFacts.show_channel_notices _ _ _ ls) by assumption.
  unfold io_bind at 1, show_warnings.
  rewrite (PresenterFacts.show_channel_notices _ _ _ lw) by assumption.
  unfold io_bind at 1, show_debuginfo.
  destruct (truthy (Config.debug config)); simpl.
  - rewrite (PresenterFacts.show_channel_notices _ _ _ ld) by assumption.
    unfold print. simpl. rewrite <- !app_assoc. reflexivity.
  - subst ld. unfold io_ret, print. simpl. rewrite <- !app_assoc. reflexivity.
Qed.

(** [add], [remove] and [update] against a success reply whose notices
    all have [data]: after the one POST the success lines are printed,
    then the warnings, then the debug lines if [debug] is true in the
    configuration and none otherwise, then the [Completed in] line. *)
Theorem mutating_commands_report (config : Config.t) (delay : string)
    (w : world) (body xmlres : string) (xmlobj : element string)
    (ls lw ld : list string) :
  https_post (List.length (posts w)) body = Replies xmlres xmlobj ->
  tag xmlobj = "response" ->
  Dict.get "type" (attrib xmlobj) = Some "success" ->
  notices "Success: " (Dict.get "success" (Response.group_children xmlobj)) ls ->
  notices "WARNING: " (Dict.get "warning" (Response.group_children xmlobj)) lw ->
  (if truthy (Config.debug config)
   then notices "Debug: " (Dict.get "debug" (Response.group_children xmlobj)) ld
   else ld = []) ->
  let done := (World (stdout w ++ ls ++ lw ++ ld ++ ["Completed in " ++ delay])
                     (posts w ++ [body]), Ret tt) in
  (forall args req,
     Request.do_add_request config args w = (w, Ret req) ->
     xml_write req = inl body -> do_add config args delay w = done) /\
  (forall args req,
     Request.do_remove_request config args w = (w, Ret req) ->
     xml_write req = inl body -> do_remove config args delay w = done) /\
  (forall args req,
     Request.do_update_request config args w = (w, Ret req) ->
     xml_write req = inl body -> do_update config args delay w = done).
Proof.
  intros Hpost Htag Htype Hs Hw Hd done. repeat split; intros args req Hreq Hxml.
  - unfold do_add. unfold io_bind at 1. rewrite Hreq.
    eapply report_after_send; eassumption.
  - unfold do_remove. unfold io_bind at 1. rewrite Hreq.
    eapply report_after_send; eassumption.
  - unfold do_update. unfold io_bind at 1. rewrite Hreq.
    eapply report_after_send; eassumption.
Qed.

End WithRuntime.
End CommandFacts.

(** ** The attributes of the method elements *)

Module RequestMore.
Import Request Specs.

Lemma NoDup_keys_set {V : Type} k (v : V) (d : Dict.t V) :
  NoDup (Dict.keys d) -> NoDup (Dict.keys (Dict.set k v d)).
Proof.
  intros Hnd. destruct (Dict.mem k d) eqn:Hmem.
  - rewrite DictFacts.keys_set_present; assumption.
  - rewrite DictFacts.keys_set_absent by assumption.
    apply NoDup_app; [assumption|repeat constructor; intros []|].
    intros x Hin [<-|[]]. apply DictFacts.mem_In_keys in Hin. congruence.
Qed.

Lemma NoDup_keys_set_opt k v (d : Dict.t json) :
  NoDup (Dict.keys d) -> NoDup (Dict.keys (set_opt k v d)).
Proof. destruct v; simpl; [apply NoDup_keys_set|trivial]. Qed.

Lemma get_set_opt k k' v (d : Dict.t json) :
  Dict.get k (set_opt k' v d) =
  if String.eqb k k'
  then match v with Some s => Some (JStr s) | None => Dict.get k d end
  else Dict.get k d.
Proof.
  destruct v as [s|]; simpl.
  - apply DictFacts.get_set.
  - destruct (String.eqb k k'); reflexivity.
Qed.

(** Keyword arguments win over what was there. *)
Lemma get_update {V : Type} k (a b : Dict.t V) :
  NoDup (Dict.keys b) ->
  Dict.get k (Dict.update a b) =
  match Dict.get k b with
  | Some v => Some v
  | None => Dict.get k a
  end.
Proof.
  unfold Dict.update. revert a.
  induction b as [|[k0 v0] b IH]; intros a Hnd; simpl; [reflexivity|].
  inversion Hnd as [|? ? Hnotin Hnd']; subst.
  rewrite IH by assumption. rewrite DictFacts.get_set.
  destruct (String.eqb_spec k k0) as [->|Hne]; [|reflexivity].
  destruct (Dict.get k0 b) eqn:Hget; [|reflexivity].
  exfalso. apply Hnotin. apply DictFacts.mem_In_keys.
  unfold Dict.mem. rewrite Hget. reflexivity.
Qed.

Lemma Forall2_map_r {A B : Type} (P : A -> B -> Prop) (f : A -> B) (l : list A) :
  (forall x, In x l -> P x (f x)) -> Forall2 P l (map f l).
Proof.
  induction l as [|x l IH]; intros H; simpl; constructor.
  - apply H. left. reflexivity.
  - apply IH. intros y Hy. apply H. right. assumption.
Qed.

Section WithRuntime.
Context {rt : Runtime}.

Lemma NoDup_query_kwargs args : NoDup (Dict.keys (query_kwargs args)).
Proof.
  unfold query_kwargs. repeat apply NoDup_keys_set_opt.
  destruct (Args.q_own args); repeat constructor. intros [].
Qed.

(** The [lookup] elements of a query: one per identifier and in order,
    with [id] for an integer and [ip] for an address, never both, and
    with each option of the command line as its decimal text, on every
    element alike; an option that was not given is not an attribute. *)
Theorem lookup_attributes (config : Config.t) (args : Args.query) (w : world) :
  exists req,
    do_query_request config args w = (w, Ret req) /\
    Forall2
      (fun item el =>
         tag el = "lookup" /\
         Dict.get "id" (attrib el) =
           match item with
           | IdInt n => Some (JStr (str_int n))
           | IdIP _ => None
           end /\
         Dict.get "ip" (attrib el) =
           match item with
           | IdInt _ => None
           | IdIP o => Some (JStr (ip_str o))
           end /\
         Dict.get "own" (attrib el) =
           (if Args.q_own args then Some (JStr "1") else None) /\
         Dict.get "limit" (attrib el) =
           option_map (fun n => JStr (str_int n)) (Args.q_limit args) /\
         Dict.get "listed" (attrib el) =
           option_map (fun n => JStr (str_int n)) (Args.q_listed args) /\
         Dict.get "type" (attrib el) =
           option_map (fun n => JStr (str_int n)) (Args.q_type args) /\
         Dict.get "start" (attrib el) =
           option_map (fun n => JStr (str_int n)) (Args.q_start args) /\
         Dict.get "stop" (attrib el) =
           option_map (fun n => JStr (str_int n)) (Args.q_stop args))
      (Args.q_idorip args) (children req).
Proof.
  eexists. split; [apply RequestFacts.add_methods_appends|].
  destruct (RequestFacts.get_rpcrequest_root config) as (_ & Hch & _).
  simpl. rewrite Hch. simpl.
  apply Forall2_map_r. intros item _.
  fold (query_kwargs args).
  pose proof (NoDup_query_kwargs args) as Hnd.
  destruct item as [n|o]; simpl;
    (split; [reflexivity|]);
    rewrite !(get_update _ _ _ Hnd); unfold query_kwargs;
    rewrite !get_set_opt; simpl;
    destruct (Args.q_own args), (Args.q_limit args), (Args.q_listed args),
      (Args.q_type args), (Args.q_start args), (Args.q_stop args);
    simpl; repeat split; reflexivity.
Qed.

(** The elements of the other commands: [add] has [ip] and the options
    [type], [port] and [comment] that were given; [remove] has [id] and
    nothing else; [update] has [id] and the [comment] that was given. *)
Theorem method_attributes (config : Config.t) (w : world) :
  (forall args, exists req,
     do_add_request config args w = (w, Ret req) /\
     Forall2
       (fun ip el =>
          tag el = "add" /\
          Dict.get "ip" (attrib el) = Some (JStr (Validators.str_ip ip)) /\
          Dict.get "type" (attrib el) =
            option_map (fun n => JStr (str_int n)) (Args.a_type args) /\
          Dict.get "port" (attrib el) =
            option_map (fun n => JStr (str_int n)) (Args.a_port args) /\
          Dict.get "comment" (attrib el) = option_map JStr (Args.a_comment args))
       (Args.a_ip args) (children req)) /\
  (forall args, exists req,
     do_remove_request config args w = (w, Ret req) /\
     children req =
       map (fun id => Element "remove" [("id", JStr (str_int id))] None [])
           (Args.r_id args)) /\
  (forall args, exists req,
     do_update_request config args w = (w, Ret req) /\
     Forall2
       (fun id el =>
          tag el = "update" /\
          Dict.get "id" (attrib el) = Some (JStr (str_int id)) /\
          Dict.get "comment" (attrib el) = option_map JStr (Args.u_comment args))
       (Args.u_id args) (children req)).
Proof.
  destruct (RequestFacts.get_rpcrequest_root config) as (_ & Hch & _).
  repeat split.
  - intros args. eexists. split; [apply RequestFacts.add_methods_appends|].
    simpl. rewrite Hch. simpl. apply Forall2_map_r. intros ip _. simpl.
    split; [reflexivity|].
    assert (Hnd : NoDup (Dict.keys
              (set_opt "comment" (Args.a_comment args)
                 (set_opt "port" (option_map str_int (Args.a_port args))
                    (set_opt "type" (option_map str_int (Args.a_type args))
                       Dict.empty)))))
      by (repeat apply NoDup_keys_set_opt; constructor).
    rewrite !(get_update _ _ _ Hnd), !get_set_opt. simpl.
    destruct (Args.a_type args), (Args.a_port args), (Args.a_comment args);
      simpl; repeat split; reflexivity.
  - intros args. eexists. split; [apply RequestFacts.add_methods_appends|].
    simpl. rewrite Hch. reflexivity.
  - intros args. eexists. split; [apply RequestFacts.add_methods_appends|].
    simpl. rewrite Hch. simpl. apply Forall2_map_r. intros id _. simpl.
    split; [reflexivity|].
    assert (Hnd : NoDup (Dict.keys
              (set_opt "comment" (Args.u_comment args) Dict.empty)))
      by (repeat apply NoDup_keys_set_opt; constructor).
    rewrite !(get_update _ _ _ Hnd), !get_set_opt. simpl.
    destruct (Args.u_comment args); simpl; repeat split; reflexivity.
Qed.

End WithRuntime.
End RequestMore.

(** ** The alignment of the query table *)

Module TableMore.
Import Table Specs.

Lemma get_app_fresh {V : Type} k (x : V) (done rest : Dict.t V) :
  ~ In k (Dict.keys done) ->
  Dict.get k (done ++ (k, x) :: rest)%list = Some x.
Proof.
  induction done as [|[k0 v0] done IH]; intros Hnotin; simpl.
  - rewrite String.eqb_refl. reflexivity.
  - destruct (String.eqb_spec k k0) as [->|_].
    + exfalso. apply Hnotin. left. reflexivity.
    + apply IH. intros Hin. apply Hnotin. right. assumption.
Qed.

Lemma set_app_fresh {V : Type} k (x y : V) (done rest : Dict.t V) :
  ~ In k (Dict.keys done) ->
  Dict.set k y (done ++ (k, x) :: rest)%list = (done ++ (k, y) :: rest)%list.
Proof.
  induction done as [|[k0 v0] done IH]; intros Hnotin; simpl.
  - rewrite String.eqb_refl. reflexivity.
  - destruct (String.eqb_spec k k0) as [->|_].
    + exfalso. apply Hnotin. left. reflexivity.
    + rewrite IH; [reflexivity|]. intros Hin. apply Hnotin. right. assumption.
Qed.

(** With distinct keys the width loop handles each column on its own. *)
Lemma widen_map (r : Dict.t string) (cols : columns) :
  NoDup (Dict.keys cols) -> widen cols r = map (widen1 r) cols.
Proof.
  unfold widen.
  assert (H : forall todo done : columns,
    NoDup (Dict.keys (done ++ todo)%list) ->
    fold_left
      (fun cols k =>
         match Dict.get k r with
         | None => cols
         | Some v =>
             match Dict.get k cols with
             | Some (label, width) =>
                 if (width <? String.length v)%nat
                 then Dict.set k (label, S (String.length v)) cols
                 else cols
             | None => cols
             end
         end) (Dict.keys todo) (done ++ todo)%list
    = (done ++ map (widen1 r) todo)%list).
  { induction todo as [|[k [label width]] todo IH]; intros done Hnd; simpl.
    - reflexivity.
    - assert (Hfresh : ~ In k (Dict.keys done)).
      { unfold Dict.keys in *. rewrite map_app in Hnd. simpl in Hnd.
        apply NoDup_remove_2 in Hnd. intros Hin. apply Hnd.
        apply in_or_app. left. assumption. }
      assert (Hstep : forall c : string * nat,
        fold_left
          (fun cols k =>
             match Dict.get k r with
             | None => cols
             | Some v =>
                 match Dict.get k cols with
                 | Some (label, width) =>
                     if (width <? String.length v)%nat
                     then Dict.set k (label, S (String.length v)) cols
                     else cols
                 | None => cols
                 end
             end) (Dict.keys todo) (done ++ (k, c) :: todo)%list
        = (done ++ (k, c) :: map (widen1 r) todo)%list).
      { intros c.
        change (done ++ (k, c) :: todo)%list
          with (done ++ [(k, c)] ++ todo)%list.
        rewrite app_assoc, IH.
        - rewrite <- app_assoc. reflexivity.
        - unfold Dict.keys in *. rewrite <- app_assoc, map_app. simpl.
          rewrite map_app in Hnd. exact Hnd. }
      assert (Hw : widen1 r (k, (label, width)) =
                   match Dict.get k r with
                   | Some v =>
                       if (width <? String.length v)%nat
                       then (k, (label, S (String.length v)))
                       else (k, (label, width))
                   | None => (k, (label, width))
                   end) by reflexivity.
      rewrite Hw. clear Hw.
      destruct (Dict.get k r) as [v|]; [|apply Hstep].
      rewrite (get_app_fresh k (label, width) done todo Hfresh).
      destruct (width <? String.length v)%nat; [|apply Hstep].
      rewrite (set_app_fresh k _ _ done todo Hfresh). apply Hstep. }
  intros Hnd. apply (H cols []). assumption.
Qed.

Lemma wider_refl (cols : columns) : wider cols cols.
Proof. induction cols; constructor; auto. Qed.

Lemma wider_trans (a b c : columns) : wider a b -> wider b c -> wider a c.
Proof.
  intros Hab. revert c.
  induction Hab as [|x y a b (H1 & H2 & H3) _ IH]; intros c Hbc;
    inversion Hbc as [|? z ? c' (H4 & H5 & H6) Hrest]; subst; constructor.
  - repeat split; [congruence|congruence|lia].
  - apply IH. assumption.
Qed.

Lemma wider_keys (a b : columns) : wider a b -> Dict.keys b = Dict.keys a.
Proof.
  induction 1 as [|x y a b (H1 & _) _ IH]; simpl; [reflexivity|].
  rewrite H1, IH. reflexivity.
Qed.

Lemma wider_widen1 (r : Dict.t string) (cols : columns) :
  wider cols (map (widen1 r) cols) /\ fits (map (widen1 r) cols) r.
Proof.
  unfold fits. induction cols as [|[k [label width]] cols [IHw IHf]]; simpl.
  - split; constructor.
  - split; constructor; try assumption.
    + unfold widen1. simpl. destruct (Dict.get k r) as [v|]; [|auto].
      destruct (Nat.ltb_spec width (String.length v)); simpl; auto.
      repeat split. lia.
    + unfold widen1. simpl. destruct (Dict.get k r) as [v|] eqn:Hget.
      * destruct (Nat.ltb_spec width (String.length v)); simpl;
          intros v'; rewrite Hget; intros [= <-]; lia.
      * simpl. intros v'. rewrite Hget. discriminate.
Qed.

Lemma fits_wider (r : Dict.t string) (a b : columns) :
  wider a b -> fits a r -> fits b r.
Proof.
  unfold fits. induction 1 as [|x y a b (H1 & _ & H3) _ IH]; intros Hf;
    [constructor|].
  inversion Hf as [|? ? Hx Hrest]; subst. constructor.
  - intros v Hv. rewrite H1 in Hv. specialize (Hx v Hv). lia.
  - apply IH. assumption.
Qed.

Lemma has_all_wider (r : Dict.t string) (a b : columns) :
  wider a b -> has_all a r -> has_all b r.
Proof.
  unfold has_all. induction 1 as [|x y a b (H1 & _) _ IH]; intros Hf;
    [constructor|].
  inversion Hf; subst. constructor; [rewrite H1; assumption|auto].
Qed.

Lemma labels_fit_wider (a b : columns) :
  wider a b ->
  Forall (fun c => (String.length (fst (snd c)) <= snd (snd c))%nat) a ->
  Forall (fun c => (String.length (fst (snd c)) <= snd (snd c))%nat) b.
Proof.
  induction 1 as [|x y a b (_ & H2 & H3) _ IH]; intros Hf; [constructor|].
  inversion Hf; subst. constructor; [rewrite H2; lia|auto].
Qed.

Lemma NoDup_keys_cols0 : NoDup (Dict.keys cols0).
Proof. repeat constructor; simpl; intuition discriminate. Qed.

Lemma labels_fit_cols0 :
  Forall (fun c => (String.length (fst (snd c)) <= snd (snd c))%nat) cols0.
Proof. repeat constructor; simpl; lia. Qed.

Lemma length_ljust_fit (s : string) (width : nat) :
  (String.length s <= width)%nat -> String.length (ljust s width) = width.
Proof.
  intros Hle. unfold ljust. rewrite PresenterFacts.length_append.
  rewrite (PresenterFacts.length_repeat_char " "%char). lia.
Qed.

Lemma header_len (cols : columns) :
  Forall (fun c => (String.length (fst (snd c)) <= snd (snd c))%nat) cols ->
  forall headtext headline,
    String.length headline = String.length headtext ->
    String.length (fst (header cols headtext headline))
      = line_len cols (String.length headtext) /\
    String.length (snd (header cols headtext headline))
      = line_len cols (String.length headtext).
Proof.
  induction 1 as [|[k [label width]] cols Hfit _ IH]; intros ht hl Hlen; simpl.
  - auto.
  - simpl in Hfit.
    destruct (Nat.ltb_spec 0 (String.length ht)).
    + destruct (IH ((ht ++ " ") ++ ljust label width)
                   ((hl ++ " ") ++ repeat_str "=" width)) as [H1 H2].
      { rewrite !PresenterFacts.length_append, length_ljust_fit by assumption.
        rewrite (PresenterFacts.length_repeat_char "="%char). simpl. lia. }
      rewrite H1, H2.
      rewrite !PresenterFacts.length_append, length_ljust_fit by assumption.
      simpl. split; f_equal; lia.
    + destruct (IH (ht ++ ljust label width) (hl ++ repeat_str "=" width))
        as [H1 H2].
      { rewrite !PresenterFacts.length_append, length_ljust_fit by assumption.
        rewrite (PresenterFacts.length_repeat_char "="%char). lia. }
      rewrite H1, H2.
      rewrite !PresenterFacts.length_append, length_ljust_fit by assumption.
      split; reflexivity.
Qed.

Lemma row_line_len (r : Dict.t string) (cols : columns) :
  fits cols r -> has_all cols r ->
  forall line0,
    exists line,
      row_line cols r line0 = Ret line /\
      String.length line = line_len cols (String.length line0).
Proof.
  unfold fits, has_all.
  induction cols as [|[k [label width]] cols IH]; intros Hf Ha line0; simpl.
  - exists line0. auto.
  - inversion Hf as [|? ? Hk Hf']; inversion Ha as [|? ? Hm Ha']; subst.
    simpl in Hk, Hm. unfold Dict.mem in Hm.
    destruct (Dict.get k r) as [v|]; [|discriminate].
    specialize (Hk v eq_refl).
    destruct (Nat.ltb_spec 0 (String.length line0)).
    + destruct (IH Hf' Ha' ((line0 ++ " ") ++ ljust v width)) as (line & Hl & Hn).
      exists line. split; [assumption|]. rewrite Hn.
      rewrite !PresenterFacts.length_append, length_ljust_fit by assumption.
      simpl. f_equal. lia.
    + destruct (IH Hf' Ha' (line0 ++ ljust v width)) as (line & Hl & Hn).
      exists line. split; [assumption|]. rewrite Hn.
      rewrite !PresenterFacts.length_append, length_ljust_fit by assumption.
      reflexivity.
Qed.

Lemma complete_set_timestamp (r : Dict.t string) (iso : string) :
  complete r -> complete (Dict.set "timestamp" iso r).
Proof.
  unfold complete, has_all. intros H.
  eapply Forall_impl; [|exact H]. intros c Hc. simpl in *.
  unfold Dict.mem in *. rewrite DictFacts.get_set.
  destruct (String.eqb (fst c) "timestamp"); [reflexivity|assumption].
Qed.

Section WithRuntime.
Context {rt : Runtime}.

Lemma scan_rows_fit (rows : list (Dict.t string)) :
  forall (cols : columns) (acc : list (Dict.t string)) (w : world),
    wider cols0 cols ->
    Forall (fun r => fits cols r /\ complete r) acc ->
    Forall (fun r => complete r /\
                     forall ts, Dict.get "timestamp" r = Some ts ->
                                returned (timestamp_iso ts)) rows ->
    exists cols' rows',
      scan_rows (cols, acc) rows w = (w, Ret (cols', (acc ++ rows')%list)) /\
      wider cols0 cols' /\
      Forall (fun r => fits cols' r /\ complete r) (acc ++ rows') /\
      List.length rows' = List.length rows.
Proof.
  induction rows as [|r rows IH]; intros cols acc w Hw Hacc Hrows; simpl.
  - exists cols, []. rewrite app_nil_r. repeat split; assumption.
  - inversion Hrows as [|? ? [Hc Hts] Hrest]; subst.
    assert (Hmem : Dict.mem "timestamp" r = true).
    { unfold complete, has_all in Hc. inversion Hc; assumption. }
    unfold Dict.mem in Hmem.
    destruct (Dict.get "timestamp" r) as [ts|] eqn:Hget; [|discriminate].
    destruct (Hts ts eq_refl) as [iso Hiso].
    set (r' := Dict.set "timestamp" iso r).
    assert (Hnd : NoDup (Dict.keys cols)).
    { rewrite (wider_keys _ _ Hw). apply NoDup_keys_cols0. }
    destruct (wider_widen1 r' cols) as [Hw1 Hf1].
    destruct (IH (map (widen1 r') cols) (acc ++ [r'])%list w) as
      (cols' & rows' & Hrun & Hw' & Hall & Hlen).
    + eapply wider_trans; eassumption.
    + apply Forall_app. split.
      * eapply Forall_impl; [|exact Hacc]. intros x [Hfx Hcx].
        split; [eapply fits_wider; eassumption|assumption].
      * constructor; [|constructor].
        split; [assumption|apply complete_set_timestamp; assumption].
    + assumption.
    + exists cols', (r' :: rows'). repeat split.
      * unfold io_bind at 1. unfold scan_row. rewrite Hget.
        unfold io_bind, lift. rewrite Hiso. simpl.
        fold r'. rewrite (widen_map r' cols Hnd).
        rewrite Hrun. rewrite <- app_assoc. reflexivity.
      * assumption.
      * rewrite <- app_assoc in Hall. exact Hall.
      * simpl. rewrite Hlen. reflexivity.
Qed.

(** The table of rows that all have the six attributes. *)
Lemma table_of_complete_rows (res : Response.channels)
    (rows : list (Dict.t string)) (w : world) :
  Dict.get "result" res = Some rows ->
  Forall (fun r => complete r /\
                   forall ts, Dict.get "timestamp" r = Some ts ->
                              returned (timestamp_iso ts)) rows ->
  exists headtext headline lines results,
    do_query_table res w =
      (World (stdout w ++ headtext :: headline :: lines) (posts w),
       Ret results) /\
    List.length results = List.length rows /\
    List.length lines = List.length rows /\
    String.length headline = String.length headtext /\
    Forall (fun line => String.length line = String.length headtext) lines.
Proof.
  intros Hget Hrows.
  destruct (scan_rows_fit rows cols0 [] w (wider_refl _) (Forall_nil _) Hrows)
    as (cols & results & Hscan & Hw & Hall & Hlen).
  simpl in Hscan, Hall.
  pose proof (labels_fit_wider _ _ Hw labels_fit_cols0) as Hlabels.
  destruct (header_len cols Hlabels "" "" eq_refl) as [Hht Hhl].
  assert (Hlines : exists lines,
            Forall2 (fun r line => row_line cols r "" = Ret line) results lines /\
            Forall (fun line => String.length line = line_len cols 0) lines).
  { clear Hscan Hlen. induction results as [|r results IH].
    - exists []. split; constructor.
    - inversion Hall as [|? ? [Hf Hc] Hrest]; subst.
      destruct (IH Hrest) as (lines & H2 & Hl).
      destruct (row_line_len r cols Hf (has_all_wider _ _ _ Hw Hc) "")
        as (line & Hline & Hn).
      exists (line :: lines). split; constructor; assumption. }
  destruct Hlines as (lines & Hprint & Hlens).
  exists (fst (header cols "" "")), (snd (header cols "" "")), lines, results.
  repeat split.
  - unfold do_query_table. rewrite Hget. unfold io_bind at 1. rewrite Hscan.
    destruct (header cols "" "") as [headtext headline]. simpl fst. simpl snd.
    unfold io_bind at 1 2 3, print at 1 2. simpl.
    rewrite (PresenterFacts.for_each_print (fun r => row_line cols r "")
               results lines Hprint).
    simpl. rewrite <- !app_assoc. reflexivity.
  - assumption.
  - rewrite <- (Forall2_length Hprint). assumption.
  - rewrite Hht, Hhl. reflexivity.
  - rewrite Hht. assumption.
Qed.

(** When every [result] row has all six attributes and a timestamp that
    converts, the table is finished and aligned: the header, the rule
    under it and one line per row are printed, all of the same length,
    and the rows are returned for the count. *)
Theorem query_table_aligned (res : Response.channels)
    (rows : list (Dict.t string)) (w : world) :
  Dict.get "result" res = Some rows ->
  Forall (fun r => complete r /\
                   forall ts, Dict.get "timestamp" r = Some ts ->
                              returned (timestamp_iso ts)) rows ->
  exists headtext headline lines results,
    do_query_table res w =
      (World (stdout w ++ headtext :: headline :: lines) (posts w),
       Ret results) /\
    List.length results = List.length rows /\
    List.length lines = List.length rows /\
    String.length headline = String.length headtext /\
    Forall (fun line => String.length line = String.length headtext) lines.
Proof.
  intros Hget Hrows. apply table_of_complete_rows with (rows := rows); assumption.
Qed.

End WithRuntime.

End TableMore.

(** ** Start-up and the [config] command *)

Module StartupFacts.
Import Startup ConfigCommand.

Section WithRuntime.
Context {rt : Runtime}.

(** The key a run uses: the one on the command line when there is one,
    else the one the file gave; with neither, every command but [config]
    ends with the usage error, status 2, and [config] goes on without a
    key. *)
Theorem key_precedence (fs : string -> Config.fsentry) (conffile : string)
    (command : string) (loaded : Config.t) :
  Config.load_config fs conffile Config.defaults = Ret loaded ->
  (forall key,
     startup fs conffile (Some key) command =
     Ret (Config.Make (JStr key) (Config.staging loaded) (Config.debug loaded))) /\
  (Config.rpckey loaded <> JNull ->
   startup fs conffile None command = Ret loaded) /\
  (Config.rpckey loaded = JNull -> command <> "config" ->
   startup fs conffile None command = Raise (SystemExit 2)) /\
  (command = "config" -> startup fs conffile None command = Ret loaded).
Proof.
  intros Hload. unfold startup. rewrite Hload. simpl. repeat split.
  - intros key. destruct (String.eqb command "config"); reflexivity.
  - intros Hkey. destruct (String.eqb command "config"); simpl; [reflexivity|].
    destruct (Config.rpckey loaded); try reflexivity. contradiction.
  - intros Hkey Hcmd.
    destruct (String.eqb_spec command "config"); [contradiction|]. simpl.
    rewrite Hkey. reflexivity.
  - intros ->. reflexivity.
Qed.

End WithRuntime.

Section WithFiles.
Context {files : Files}.

(** [config] without [-r], [-s] and [-d] only prints: the title, an empty
    line, the key or [not set], the staging mode, and the debug line only
    when [debug] is true; the disk and the configuration are left alone. *)
Theorem config_without_flags_only_prints (conffile : string)
    (config : Config.t) (m : machine) :
  let m' := fst (do_config (Args None None None) conffile config m) in
  snd (do_config (Args None None None) conffile config m) = Ret config /\
  disk m' = disk m /\
  posts (console m') = posts (console m) /\
  stdout (console m') =
    (stdout (console m) ++
     ["Configuration:"; "";
      match Config.rpckey config with
      | JNull => "RPC Key: not set"
      | key => ("RPC Key: " ++ str_json key)%string
      end;
      if truthy (Config.staging config) then "Staging: Yes" else "Staging: No"]
     ++ (if truthy (Config.debug config) then ["Debug: Yes"] else []))%list.
Proof.
  unfold do_config, show_config. simpl.
  destruct (truthy (Config.staging config)), (truthy (Config.debug config)),
    (Config.rpckey config); simpl;
    repeat split; rewrite <- ?app_assoc; reflexivity.
Qed.

(** [config] with a flag, on a disk that cannot be written: the reason is
    printed, the run ends with [SystemExit(1)], and the disk is as it
    was. *)
Theorem config_write_failure (a : args) (conffile : string)
    (config : Config.t) (m : machine) (ex : string) :
  is_None (c_rpckey a) && is_None (c_staging a) && is_None (c_debug a) = false ->
  open_w conffile = Some ex ->
  do_config a conffile config m =
    (Machine (World (stdout (console m) ++
                     ["Unable to update configuration: " ++ ex])
                    (posts (console m))) (disk m),
     Raise (SystemExit 1)) /\
  exit_status (snd (do_config a conffile config m)) = 1.
Proof.
  intros Hflags Hopen. unfold do_config. rewrite Hflags, Hopen. simpl.
  split; reflexivity.
Qed.

End WithFiles.

Section RoundTrip.
Context {rt : Runtime} {files : Files}.

(** [config] with a flag writes the configuration with the flags applied
    and leaves every other path alone; a later start-up that reads the
    file back gets exactly that configuration, provided [json.load] reads
    back what [json.dump] wrote.  [yes] and [no] set [staging] and [debug]
    to true and false, a flag that is absent leaves the value, and [-r]
    sets the key. *)
Theorem config_update_round_trip (a : args) (conffile : string)
    (config : Config.t) (m : machine) :
  is_None (c_rpckey a) && is_None (c_staging a) && is_None (c_debug a) = false ->
  open_w conffile = None ->
  json_loads (json_dumps (apply_flags a config)) =
    Some (to_json (apply_flags a config)) ->
  let m' := fst (do_config a conffile config m) in
  snd (do_config a conffile config m) = Ret (apply_flags a config) /\
  stdout (console m') = (stdout (console m) ++ ["Configuration updated"])%list /\
  (forall path, path <> conffile -> disk m' path = disk m path) /\
  Config.load_config (disk m') conffile Config.defaults =
    Ret (apply_flags a config) /\
  Config.staging (apply_flags a config) =
    (if is_str (c_staging a) "yes" then JBool true
     else if is_str (c_staging a) "no" then JBool false
     else Config.staging config) /\
  Config.debug (apply_flags a config) =
    (if is_str (c_debug a) "yes" then JBool true
     else if is_str (c_debug a) "no" then JBool false
     else Config.debug config) /\
  Config.rpckey (apply_flags a config) =
    match c_rpckey a with
    | Some key => JStr key
    | None => Config.rpckey config
    end.
Proof.
  intros Hflags Hopen Hjson. unfold do_config. rewrite Hflags, Hopen. simpl.
  repeat split.
  - intros path Hne.
    destruct (String.eqb_spec path conffile); [contradiction|reflexivity].
  - unfold Config.load_config. rewrite String.eqb_refl, Hjson. simpl.
    destruct (apply_flags a config). reflexivity.
  - unfold apply_flags.
    destruct (c_rpckey a), (is_str (c_staging a) "yes"),
      (is_str (c_staging a) "no"), (is_str (c_debug a) "yes"),
      (is_str (c_debug a) "no"); reflexivity.
  - unfold apply_flags.
    destruct (c_rpckey a), (is_str (c_staging a) "yes"),
      (is_str (c_staging a) "no"), (is_str (c_debug a) "yes"),
      (is_str (c_debug a) "no"); reflexivity.
  - unfold apply_flags.
    destruct (c_rpckey a), (is_str (c_staging a) "yes"),
      (is_str (c_staging a) "no"), (is_str (c_debug a) "yes"),
      (is_str (c_debug a) "no"); reflexivity.
Qed.

End RoundTrip.
End StartupFacts.

(** ** The properties above on concrete runs *)

Module MoreExamples.
Import Fixtures.

Lemma malformed_envelope_is_fatal_witness :
  Response.send_rpcrequest
    (rt := Example.answering (Replies "" (Element "html" [] None [])))
    request false (World [] []) =
    (World ["Error: invalid XML response received..."] ["<request />"],
     Raise (SystemExit (-1))) /\
  Response.send_rpcrequest
    (rt := Example.answering (Replies "" (Element "response" [] None [])))
    request false (World [] []) =
    (World ["Error: missing response type attribute..."] ["<request />"],
     Raise (SystemExit (-1))) /\
  Response.send_rpcrequest
    (rt := Example.answering
             (Replies "" (Element "response" [("type", "maybe")] None [])))
    request false (World [] []) =
    (World ["Error: Unknown response type received: maybe"] ["<request />"],
     Raise (SystemExit (-1))).
Proof.
  split; [|split].
  - apply (proj1 (ResponseMore.malformed_envelope_is_fatal
             (rt := Example.answering (Replies "" (Element "html" [] None [])))
             request false (World [] []) "<request />" ""
             (Element "html" [] None []) eq_refl eq_refl)).
    discriminate.
  - apply (proj1 (proj2 (ResponseMore.malformed_envelope_is_fatal
             (rt := Example.answering (Replies "" (Element "response" [] None [])))
             request false (World [] []) "<request />" ""
             (Element "response" [] None []) eq_refl eq_refl)));
      reflexivity.
  - apply (proj2 (proj2 (ResponseMore.malformed_envelope_is_fatal
             (rt := Example.answering
                      (Replies "" (Element "response" [("type", "maybe")] None [])))
             request false (World [] []) "<request />" ""
             (Element "response" [("type", "maybe")] None [])
             eq_refl eq_refl)) "maybe");
      try reflexivity; discriminate.
Defined.

Lemma error_reply_without_field_witness :
  Response.send_rpcrequest
    (rt := Example.answering
             (Replies "" (Element "response" [("type", "error")] None
                            [Element "code" [] (Some "100") [];
                             Element "message" [] (Some "Bad key") []])))
    request false (World [] []) =
  (World [] ["<request />"],
   Raise (AttributeError "'NoneType' object has no attribute 'text'")).
Proof.
  apply (proj1 (ResponseMore.error_reply_without_field
           (rt := Example.answering
                    (Replies "" (Element "response" [("type", "error")] None
                                   [Element "code" [] (Some "100") [];
                                    Element "message" [] (Some "Bad key") []])))
           request false (World [] []) "<request />" "" _
           eq_refl eq_refl eq_refl eq_refl
           (or_intror (or_intror eq_refl)))).
Defined.

Lemma error_reply_with_empty_code_witness :
  Response.send_rpcrequest
    (rt := Example.answering
             (Replies "" (Element "response" [("type", "error")] None
                            [Element "code" [] None [];
                             Element "message" [] (Some "Bad key") [];
                             Element "data" [] (Some "detail") []])))
    request false (World [] []) =
  (World ["Error received from RPC server:"; ""] ["<request />"],
   Raise (TypeError "can only concatenate str (not NoneType) to str")).
Proof.
  apply (ResponseMore.error_reply_with_empty_code
           (rt := Example.answering
                    (Replies "" (Element "response" [("type", "error")] None
                                   [Element "code" [] None [];
                                    Element "message" [] (Some "Bad key") [];
                                    Element "data" [] (Some "detail") []])))
           request false (World [] []) "<request />" "" _
           (Element "code" [] None [])
           (Element "message" [] (Some "Bad key") [])
           (Element "data" [] (Some "detail") [])
           eq_refl eq_refl eq_refl eq_refl eq_refl eq_refl eq_refl eq_refl).
Defined.

(** A key that the configuration file gave as a number cannot be
    written as an attribute. *)
Lemma unserializable_request_is_not_sent_witness :
  Response.send_rpcrequest
    (rt := ExampleMore.runtime None (Fails Timeout "timed out"))
    (Request.get_rpcrequest (Config.Make (JInt 5) (JBool false) (JBool false)))
    false (World [] []) =
  (World ["Error generating request body XML: cannot serialize attribute value (not a string)"]
         [], Raise (SystemExit (-1))).
Proof.
  apply (ResponseMore.unserializable_request_is_not_sent
           (rt := ExampleMore.runtime None (Fails Timeout "timed out"))
           (Request.get_rpcrequest
              (Config.Make (JInt 5) (JBool false) (JBool false)))
           false (World [] [])
           "cannot serialize attribute value (not a string)" eq_refl).
Defined.

Lemma send_rpcrequest_posts_at_most_once_witness :
  exists body,
    posts (fst (Response.send_rpcrequest
                  (rt := Example.answering (Replies "" success_doc))
                  request false (World [] []))) = [body].
Proof.
  destruct (proj2 (proj2 (ResponseMore.send_rpcrequest_posts_at_most_once
              (rt := Example.answering (Replies "" success_doc))
              request false (World [] []))))
    as (body & _ & Hposts).
  - eexists. reflexivity.
  - exists body. exact Hposts.
Defined.

Lemma types_table_layout_witness :
  Presenter.do_types_table
    [("typelist", [[("type", "3"); ("description", "IRC Drone")];
                   [("type", "19"); ("description", "Abused VPN Service")]])]
    (World [] []) =
  (World ["Type  Description"; "===== ===================";
          "3     IRC Drone"; "19    Abused VPN Service"] [], Ret tt).
Proof.
  destruct (CommandFacts.types_table_layout
              [("typelist", [[("type", "3"); ("description", "IRC Drone")];
                             [("type", "19");
                              ("description", "Abused VPN Service")]])]
              [[("type", "3"); ("description", "IRC Drone")];
               [("type", "19"); ("description", "Abused VPN Service")]]
              (World [] []) eq_refl)
    as (rows & Hrows & Hrun & _).
  - repeat constructor.
  - rewrite Hrun. clear Hrun.
    inversion Hrows as [|? r1 ? rows1 H1 Hrest]; subst.
    inversion Hrest as [|? r2 ? rows2 H2 Hnil]; subst.
    inversion Hnil; subst.
    injection H1 as <-. injection H2 as <-. reflexivity.
Defined.

Lemma types_without_typelist_witness :
  Presenter.do_types
    (rt := Example.answering (Replies "" ExampleMore.notices_doc))
    (Config.Make (JStr "secret") (JBool false) (JBool false)) (World [] []) =
  (World ["Error: missing typelist"] ["<request />"], Ret tt).
Proof.
  apply (proj1 (CommandFacts.types_without_typelist
           (rt := Example.answering (Replies "" ExampleMore.notices_doc))
           (Config.Make (JStr "secret") (JBool false) (JBool false))
           (World [] []) _ "<request />" "" ExampleMore.notices_doc
           eq_refl eq_refl eq_refl eq_refl eq_refl eq_refl)).
Defined.

Lemma mutating_commands_report_witness :
  Presenter.do_remove
    (rt := Example.answering (Replies "" ExampleMore.notices_doc))
    (Config.Make (JStr "secret") (JBool false) (JBool false))
    (Args.Remove [7]) "0:00:00.25" (World [] []) =
  (World ["Success: Added (ip=192.0.2.1)"; "WARNING: Rate limited";
          "Completed in 0:00:00.25"] ["<request />"], Ret tt).
Proof.
  refine (proj1 (proj2 (CommandFacts.mutating_commands_report
            (rt := Example.answering (Replies "" ExampleMore.notices_doc))
            (Config.Make (JStr "secret") (JBool false) (JBool false))
            "0:00:00.25" (World [] []) "<request />" ""
            ExampleMore.notices_doc
            ["Success: Added (ip=192.0.2.1)"] ["WARNING: Rate limited"] []
            eq_refl eq_refl eq_refl _ _ eq_refl))
            (Args.Remove [7]) _ eq_refl eq_refl);
    simpl; repeat constructor.
Defined.

Lemma query_table_aligned_witness :
  Table.do_query_table
    (rt := ExampleMore.runtime None (Fails Timeout "timed out"))
    [("result", [ExampleMore.row1])] (World [] []) =
  (World ["Time                 ID  IP         Type  Listed  Comment ";
          "==================== === ========== ===== ======= ========";
          "2023-11-14T22:13:20  7   192.0.2.1  3     1               "] [],
   Ret [Dict.set "timestamp" "2023-11-14T22:13:20" ExampleMore.row1]).
Proof.
  destruct (TableMore.query_table_aligned
              (rt := ExampleMore.runtime None (Fails Timeout "timed out"))
              [("result", [ExampleMore.row1])] [ExampleMore.row1]
              (World [] []) eq_refl)
    as (headtext & headline & lines & results & Hrun & _).
  - constructor; [|constructor]. split.
    + repeat constructor.
    + intros ts [= <-]. eexists. reflexivity.
  - reflexivity.
Defined.

Lemma key_precedence_witness :
  Startup.startup (rt := Example.reading (Some (JObj [("rpckey", JStr "filekey")])))
    (fun _ => Config.File "{...}") ".dronebl" (Some "clikey") "query" =
    Ret (Config.Make (JStr "clikey") (JBool false) (JBool false)) /\
  Startup.startup (rt := Example.reading (Some (JObj [("rpckey", JStr "filekey")])))
    (fun _ => Config.File "{...}") ".dronebl" None "query" =
    Ret (Config.Make (JStr "filekey") (JBool false) (JBool false)) /\
  Startup.startup (rt := Example.runtime)
    (fun _ => Config.NoFile) ".dronebl" None "query" = Raise (SystemExit 2) /\
  Startup.startup (rt := Example.runtime)
    (fun _ => Config.NoFile) ".dronebl" None "config" = Ret Config.defaults.
Proof.
  split; [|split; [|split]].
  - apply (proj1 (StartupFacts.key_precedence
             (rt := Example.reading (Some (JObj [("rpckey", JStr "filekey")])))
             (fun _ => Config.File "{...}") ".dronebl" "query"
             (Config.Make (JStr "filekey") (JBool false) (JBool false))
             eq_refl) "clikey").
  - apply (proj1 (proj2 (StartupFacts.key_precedence
             (rt := Example.reading (Some (JObj [("rpckey", JStr "filekey")])))
             (fun _ => Config.File "{...}") ".dronebl" "query"
             (Config.Make (JStr "filekey") (JBool false) (JBool false))
             eq_refl))).
    discriminate.
  - apply (proj1 (proj2 (proj2 (StartupFacts.key_precedence
             (rt := Example.runtime) (fun _ => Config.NoFile) ".dronebl" "query"
             Config.defaults eq_refl))));
      [reflexivity|discriminate].
  - apply (proj2 (proj2 (proj2 (StartupFacts.key_precedence
             (rt := Example.runtime) (fun _ => Config.NoFile) ".dronebl" "config"
             Config.defaults eq_refl)))).
    reflexivity.
Defined.

Lemma config_write_failure_witness :
  ConfigCommand.do_config (files := ExampleMore.files (Some "Permission denied"))
    (ConfigCommand.Args None (Some "yes") None) ".dronebl" Config.defaults
    (ConfigCommand.Machine (World [] []) (fun _ => Config.NoFile)) =
  (ConfigCommand.Machine
     (World ["Unable to update configuration: Permission denied"] [])
     (fun _ => Config.NoFile),
   Raise (SystemExit 1)).
Proof.
  apply (proj1 (StartupFacts.config_write_failure
           (files := ExampleMore.files (Some "Permission denied"))
           (ConfigCommand.Args None (Some "yes") None) ".dronebl" Config.defaults
           (ConfigCommand.Machine (World [] []) (fun _ => Config.NoFile))
           "Permission denied" eq_refl eq_refl)).
Defined.

(** [config --staging yes], then a fresh load. *)
Lemma config_update_round_trip_witness :
  Config.load_config
    (rt := Example.reading
             (Some (ConfigCommand.to_json
                      (Config.Make (JStr "secret") (JBool true) (JBool false)))))
    (ConfigCommand.disk
       (fst (ConfigCommand.do_config (files := ExampleMore.files None)
               (ConfigCommand.Args None (Some "yes") None) ".dronebl"
               (Config.Make (JStr "secret") (JBool false) (JBool false))
               (ConfigCommand.Machine (World [] []) (fun _ => Config.NoFile)))))
    ".dronebl" Config.defaults =
  Ret (Config.Make (JStr "secret") (JBool true) (JBool false)).
Proof.
  destruct (StartupFacts.config_update_round_trip
              (rt := Example.reading
                       (Some (ConfigCommand.to_json
                                (Config.Make (JStr "secret") (JBool true)
                                             (JBool false)))))
              (files := ExampleMore.files None)
              (ConfigCommand.Args None (Some "yes") None) ".dronebl"
              (Config.Make (JStr "secret") (JBool false) (JBool false))
              (ConfigCommand.Machine (World [] []) (fun _ => Config.NoFile))
              eq_refl eq_refl eq_refl)
    as (_ & _ & _ & Hload & _).
  exact Hload.
Defined.

End MoreExamples.

(** ** The [query] command as a whole *)

Module QueryFacts.
Import Presenter Specs.

Section WithRuntime.
Context {rt : Runtime}.

(** [query] against a success reply whose [result] rows all have the six
    attributes and a timestamp that converts, and whose notices have
    [data]: after the one POST the table is printed, the header, the rule
    and a line per row, or nothing at all when the reply has no [result]
    element; then the warnings, the debug lines if [debug] is true, and
    the summary, whose count is the number of [result] elements. *)
Theorem query_report (config : Config.t) (args : Args.query) (delay : string)
    (w : world) (req : element json) (body xmlres : string)
    (xmlobj : element string) (lw ld : list string) :
  Request.do_query_request config args w = (w, Ret req) ->
  xml_write req = inl body ->
  https_post (List.length (posts w)) body = Replies xmlres xmlobj ->
  tag xmlobj = "response" ->
  Dict.get "type" (attrib xmlobj) = Some "success" ->
  let rows := map attrib (Response.with_tag "result" (children xmlobj)) in
  Forall (fun r => complete r /\
                   forall ts, Dict.get "timestamp" r = Some ts ->
                              returned (timestamp_iso ts)) rows ->
  notices "WARNING: " (Dict.get "warning" (Response.group_children xmlobj)) lw ->
  (if truthy (Config.debug config)
   then notices "Debug: " (Dict.get "debug" (Response.group_children xmlobj)) ld
   else ld = []) ->
  exists table,
    do_query config args delay w =
      (World (stdout w ++ table ++ lw ++ ld ++
              [str_int (Z.of_nat (List.length rows)) ++ " results found in "
               ++ delay])
             (posts w ++ [body]), Ret tt) /\
    List.length table =
      match rows with
      | [] => O
      | _ => (2 + List.length rows)%nat
      end.
Proof.
  intros Hreq Hxml Hpost Htag Htype rows Hrows Hw Hd.
  pose proof (proj1 (ResponseFacts.group_children_spec xmlobj) "result") as Hres.
  assert (Htable : exists table results,
    Table.do_query_table (Response.group_children xmlobj)
      (World (stdout w) (posts w ++ [body])) =
      (World (stdout w ++ table) (posts w ++ [body]), Ret results) /\
    List.length results = List.length rows /\
    List.length table = match rows with
                        | [] => O
                        | _ => (2 + List.length rows)%nat
                        end).
  { unfold rows in *.
    destruct (Response.with_tag "result" (children xmlobj)) as [|el els] eqn:Hels.
    - exists [], []. unfold Table.do_query_table. rewrite Hres.
      simpl. rewrite app_nil_r. repeat split.
    - destruct (TableMore.table_of_complete_rows _ _
                  (World (stdout w) (posts w ++ [body])) Hres Hrows)
        as (ht & hl & lines & results & Hrun & Hn & Hl & _).
      exists (ht :: hl :: lines), results. simpl in *.
      repeat split; [exact Hrun|exact Hn|]. rewrite Hl. reflexivity. }
  destruct Htable as (table & results & Hrun & Hn & Hlen).
  exists table. split; [|assumption].
  unfold do_query. unfold io_bind at 1. rewrite Hreq.
  unfold io_bind at 1.
  rewrite (CommandFacts.send_success req w body xmlres xmlobj) by assumption.
  unfold io_bind at 1. rewrite Hrun.
  unfold io_bind at 1, show_warnings.
  rewrite (PresenterFacts.show_channel_notices _ _ _ lw) by assumption.
  unfold io_bind at 1, show_debuginfo. rewrite Hn.
  destruct (truthy (Config.debug config)); simpl.
  - rewrite (PresenterFacts.show_channel_notices _ _ _ ld) by assumption.
    unfold print. simpl. rewrite <- !app_assoc. reflexivity.
  - subst ld. unfold io_ret, print. simpl. rewrite <- !app_assoc. reflexivity.
Qed.

End WithRuntime.

Lemma query_report_witness :
  do_query (rt := ExampleMore.clocked (Replies "" ExampleMore.rows_doc))
    (Config.Make (JStr "secret") (JBool false) (JBool false))
    (Args.Query [IdInt 7] false None None None None (Some 5))
    "0:00:00.25" (World [] []) =
  (World ["Time                 ID  IP         Type  Listed  Comment ";
          "==================== === ========== ===== ======= ========";
          "2023-11-14T22:13:20  7   192.0.2.1  3     1               ";
          "WARNING: Rate limited"; "1 results found in 0:00:00.25"]
         ["<request />"], Ret tt).
Proof.
  destruct (query_report
              (rt := ExampleMore.clocked (Replies "" ExampleMore.rows_doc))
              (Config.Make (JStr "secret") (JBool false) (JBool false))
              (Args.Query [IdInt 7] false None None None None (Some 5))
              "0:00:00.25" (World [] []) _ "<request />" ""
              ExampleMore.rows_doc ["WARNING: Rate limited"] []
              eq_refl eq_refl eq_refl eq_refl eq_refl)
    as (table & Hrun & _).
  - constructor; [|constructor]. split.
    + repeat constructor.
    + intros ts [= <-]. eexists. reflexivity.
  - simpl. repeat constructor.
  - reflexivity.
  - reflexivity.
Defined.

End QueryFacts.

(** ** The choices of [--listed] *)

Module ChoicesFacts.

Section WithRuntime.
Context {rt : Runtime}.

Lemma listed_Ret (val : string) (p : Z) :
  Choices.listed val = Ret p <-> int_of_str val = Ret p /\ 0 <= p <= 2.
Proof.
  unfold Choices.listed, Args.get_value.
  destruct (int_of_str val) as [v|e]; simpl.
  - destruct (Z.leb_spec 0 v), (Z.ltb_spec v 3); simpl; split;
      try (intros H1; discriminate H1);
      try (intros [[= ->] ?]; lia);
      try (intros [= ->]; split; [reflexivity|lia]);
      try (intros [[= ->] _]; reflexivity).
  - split.
    + destruct e; intros H; discriminate H.
    + intros [H _]. discriminate H.
Qed.

(** [--listed] takes exactly the integers 0, 1 and 2: the choices are
    [range(0, 3)], one more than the two values its help names.  Every
    other integer, and every string that [int] rejects, ends the run with
    the usage error, status 2. *)
Theorem listed_accepts_0_1_2 (val : string) :
  (forall p, Choices.listed val = Ret p <->
             int_of_str val = Ret p /\ 0 <= p <= 2) /\
  (forall v, int_of_str val = Ret v -> ~ 0 <= v <= 2 ->
             Choices.listed val = Raise (SystemExit 2)) /\
  (forall m, int_of_str val = Raise (ValueError m) ->
             Choices.listed val = Raise (SystemExit 2)) /\
  (forall m, int_of_str val = Raise (TypeError m) ->
             Choices.listed val = Raise (SystemExit 2)).
Proof.
  split; [intros p; apply listed_Ret|].
  unfold Choices.listed, Args.get_value. repeat split.
  - intros v -> Hout. simpl.
    destruct (Z.leb_spec 0 v), (Z.ltb_spec v 3); simpl; try reflexivity. lia.
  - intros m ->. reflexivity.
  - intros m ->. reflexivity.
Qed.

End WithRuntime.

Lemma listed_accepts_0_1_2_witness :
  Choices.listed (rt := Example.runtime) "2" = Ret 2 /\
  Choices.listed (rt := Example.runtime) "3" = Raise (SystemExit 2) /\
  Choices.listed (rt := Example.runtime) "-1" = Raise (SystemExit 2) /\
  Choices.listed (rt := Example.runtime) "yes" = Raise (SystemExit 2).
Proof.
  destruct (listed_accepts_0_1_2 (rt := Example.runtime) "2") as (H2 & _).
  destruct (listed_accepts_0_1_2 (rt := Example.runtime) "3") as (_ & H3 & _).
  destruct (listed_accepts_0_1_2 (rt := Example.runtime) "-1") as (_ & Hm & _).
  destruct (listed_accepts_0_1_2 (rt := Example.runtime) "yes")
    as (_ & _ & Hyes & _).
  split; [apply H2; split; [reflexivity|lia]|].
  split; [apply (H3 3 eq_refl); lia|].
  split; [apply (Hm (-1) eq_refl); lia|].
  eapply Hyes. reflexivity.
Defined.

End ChoicesFacts.
